(** * checkmk-matrix-notify: a CheckMK notification forwarder for Matrix

    A shallow embedding of [checkmk-matrix-notify.py] and the properties of
    its message builder, its delivery client and its exit-code mapping.

    Conventions of the embedding.
    - A Python [str] is a [string] holding its UTF-8 bytes; for a value read
      from [os.environ] these are the bytes of the environment entry. The
      interpreter decodes an entry as UTF-8 with surrogate escapes, so an
      entry that is not valid UTF-8 stands for a [str] with lone surrogates,
      which cannot be encoded again.
    - [os.environ] is a finite map from names to values.
    - Printing, the HTTP call and raised exceptions are threaded through a
      small state-and-exception monad over a [World] that records what was
      written to standard output and standard error and which HTTP calls
      were made.
    - What the script takes from its runtime and from the network is an
      explicit input: the case mapping of [str.upper], the reply of
      [requests.put], the 16 bytes [uuid.uuid4] draws from the system and
      the traceback the interpreter prints for an uncaught exception. *)

From stdpp Require Import base gmap strings list pretty.
From Stdlib Require Import ZArith Ascii Lia.

Open Scope string_scope.
Open Scope Z_scope.
Open Scope list_scope.

(** ** Python strings *)

Module Str.

(** [sep.join(parts)] *)
Fixpoint join (sep : string) (parts : list string) : string :=
  match parts with
  | [] => ""
  | [p] => p
  | p :: rest => p +:+ sep +:+ join sep rest
  end.

(** [sub in s], as a proposition and as a test. *)
Definition Substring (sub s : string) : Prop :=
  ∃ pre post, s = pre +:+ sub +:+ post.

Fixpoint starts_with (p s : string) : bool :=
  match p, s with
  | EmptyString, _ => true
  | String a p', String b s' => if decide (a = b) then starts_with p' s' else false
  | String _ _, EmptyString => false
  end.

Fixpoint contains (sub s : string) : bool :=
  starts_with sub s ||
  match s with
  | EmptyString => false
  | String _ s' => contains sub s'
  end.

(** The line feed, ["\n"] in the script. *)
Definition newline : string := String "010"%char "".

(** [lines.append(x)] on a list of strings *)
Definition append_to (lines : list string) (x : string) : list string :=
  lines ++ [x].

(** [bool(s)]: a string is falsy exactly when it is empty. *)
Definition truthy (s : string) : bool :=
  match s with
  | EmptyString => false
  | String _ _ => true
  end.

(** [bool(value)] for a value that is [None] or a string. *)
Definition truthy_opt (value : option string) : bool :=
  match value with
  | None => false
  | Some s => truthy s
  end.

(** ASCII upper-casing: the restriction of [str.upper] to ASCII text. It is
    the instance of the case mapping used to run the script on examples. *)
Definition ascii_upper_char (c : ascii) : ascii :=
  let n := N_of_ascii c in
  if ((97 <=? n) && (n <=? 122))%N then ascii_of_N (n - 32) else c.

Fixpoint ascii_upper (s : string) : string :=
  match s with
  | EmptyString => EmptyString
  | String c s' => String (ascii_upper_char c) (ascii_upper s')
  end.

End Str.

(** ** Configuration *)

Definition REQUEST_TIMEOUT : Z := 15.

Definition EXIT_SUCCESS : Z := 0.
Definition EXIT_RETRY : Z := 1.
Definition EXIT_FAILED : Z := 2.

(** The emoji literals of the script, byte for byte. The warning sign and
    the information sign are followed by U+FE0F and by one space. *)
Definition STATE_EMOJIS : gmap string string :=
  <["OK" := "✅"]>
  (<["UP" := "✅"]>
  (<["WARN" := "⚠️ "]>
  (<["CRIT" := "🚨"]>
  (<["DOWN" := "🚨"]>
  (<["UNKNOWN" := "❔"]> ∅))))).

(** ** Helper functions *)

(** [os.environ.get(name, default)] *)
Definition get_env (environ : gmap string string) (name dflt : string) : string :=
  default dflt (environ !! name).

(** [STATE_EMOJIS.get(state, default)] with the script's default. *)
Definition get_emoji (state : string) : string :=
  default "ℹ️ " (STATE_EMOJIS !! state).

(** ** Message building *)

(** The local variables of [build_message] after the environment has been
    read (lines 76-95 of the script). *)
Record NotificationContext := {
  what : string;
  notification_type : string;
  hostname : string;
  site : string;
  timestamp : string;
  state : string;
  previous_state : string;
  output : string;
  service_name : string
}.

Definition is_service (ctx : NotificationContext) : bool :=
  bool_decide (what ctx = "SERVICE").

Section Builder.

(** [str.upper], the case mapping of the Python runtime. *)
Variable upper : string → string.

Definition read_context (environ : gmap string string) : NotificationContext :=
  let what := upper (get_env environ "NOTIFY_WHAT" "HOST") in
  let is_service := bool_decide (what = "SERVICE") in
  let notification_type := get_env environ "NOTIFY_NOTIFICATIONTYPE" "" in
  let hostname := get_env environ "NOTIFY_HOSTNAME" "" in
  let site := get_env environ "OMD_SITE" "" in
  let timestamp := get_env environ "NOTIFY_SHORTDATETIME" "" in
  if is_service then
    {| what := what; notification_type := notification_type;
       hostname := hostname; site := site; timestamp := timestamp;
       state := get_env environ "NOTIFY_SERVICESHORTSTATE" "";
       previous_state := get_env environ "NOTIFY_PREVIOUSSERVICEHARDSHORTSTATE" "";
       output := get_env environ "NOTIFY_SERVICEOUTPUT" "";
       service_name := get_env environ "NOTIFY_SERVICEDESC" "" |}
  else
    {| what := what; notification_type := notification_type;
       hostname := hostname; site := site; timestamp := timestamp;
       state := get_env environ "NOTIFY_HOSTSHORTSTATE" "";
       previous_state := get_env environ "NOTIFY_PREVIOUSHOSTHARDSHORTSTATE" "";
       output := get_env environ "NOTIFY_HOSTOUTPUT" "";
       service_name := "" |}.

(** Lines 97-106: the lines of the plain-text body. *)
Definition plain_lines (ctx : NotificationContext) : list string :=
  let emoji := get_emoji (state ctx) in
  let plain_lines :=
    [emoji +:+ " " +:+ what ctx +:+ " " +:+ notification_type ctx +:+ ": " +:+ hostname ctx] in
  let plain_lines :=
    if is_service ctx then Str.append_to plain_lines ("Service: " +:+ service_name ctx)
    else plain_lines in
  let plain_lines :=
    Str.append_to plain_lines ("State: " +:+ previous_state ctx +:+ " → " +:+ state ctx) in
  Str.append_to plain_lines ("Output: " +:+ output ctx).

(** Lines 110-119: the lines of the HTML body. *)
Definition html_lines (ctx : NotificationContext) : list string :=
  let emoji := get_emoji (state ctx) in
  let html_lines :=
    ["<p><b>" +:+ emoji +:+ " " +:+ what ctx +:+ " " +:+ notification_type ctx +:+ "</b></p>";
     "<b>Host:</b> " +:+ hostname ctx] in
  let html_lines :=
    if is_service ctx then Str.append_to html_lines ("<b>Service:</b> " +:+ service_name ctx)
    else html_lines in
  let html_lines :=
    Str.append_to html_lines
      ("<b>State:</b> " +:+ previous_state ctx +:+ " &rarr; <b>" +:+ state ctx +:+ "</b>") in
  let html_lines :=
    Str.append_to html_lines ("<b>Output:</b> <code>" +:+ output ctx +:+ "</code>") in
  Str.append_to html_lines
    ("<p><small>Site: " +:+ site ctx +:+ " | " +:+ timestamp ctx +:+ "</small></p>").

(** Line 108: the plain-text body. *)
Definition plain_text (ctx : NotificationContext) : string :=
  Str.join Str.newline (plain_lines ctx).

(** Modelled from the spec: the end of [build_message], which the listing of
    the script cuts inside its last assignment, at ["<br>".join(html]. By
    the specification the HTML lines are joined with the line-break element
    and the message is the pair of the plain text and the HTML text; the
    docstring of the function announces that pair and [main] unpacks it. *)
Definition render_message (ctx : NotificationContext) : string * string :=
  let html_text := Str.join "<br>" (html_lines ctx) in
  (plain_text ctx, html_text).

Definition build_message (environ : gmap string string) : string * string :=
  render_message (read_context environ).

End Builder.

(** ** Exceptions, effects and the process *)

Module Exc.

(** The exception classes the script can meet: the built-in ones, the
    hierarchy of [requests.exceptions], and two open cases for any other
    class inside and outside that hierarchy. *)
Inductive class :=
| BaseException | SystemExit | Exception | ValueError | UnicodeError
| UnicodeEncodeError | OSError
| RequestException | Timeout | ConnectionError | HTTPError
| ConnectTimeout | ReadTimeout | SSLError | ProxyError
| OtherRequestException (name : string)
| OtherException (name : string).

#[global] Instance class_eq_dec : EqDecision class.
Proof. solve_decision. Defined.

(** Method resolution order: the class followed by all its ancestors. *)
Definition mro (c : class) : list class :=
  let exception := [Exception; BaseException] in
  let request := [RequestException; OSError] ++ exception in
  match c with
  | BaseException => [BaseException]
  | SystemExit => [SystemExit; BaseException]
  | Exception => exception
  | ValueError => ValueError :: exception
  | UnicodeError => [UnicodeError; ValueError] ++ exception
  | UnicodeEncodeError => [UnicodeEncodeError; UnicodeError; ValueError] ++ exception
  | OSError => OSError :: exception
  | RequestException => request
  | Timeout => Timeout :: request
  | ConnectionError => ConnectionError :: request
  | HTTPError => HTTPError :: request
  | ConnectTimeout => [ConnectTimeout; ConnectionError; Timeout] ++ request
  | ReadTimeout => [ReadTimeout; Timeout] ++ request
  | SSLError => [SSLError; ConnectionError] ++ request
  | ProxyError => [ProxyError; ConnectionError] ++ request
  | OtherRequestException n => OtherRequestException n :: request
  | OtherException n => OtherException n :: exception
  end.

(** [issubclass(c, d)] *)
Definition issubclass (c d : class) : bool := bool_decide (d ∈ mro c).

(** A raised exception: its class, [str(err)] and, for [SystemExit], the
    exit code. *)
Record t := { cls : class; message : string; code : Z }.

Definition isinstance (e : t) (d : class) : bool := issubclass (cls e) d.

End Exc.

(** One call of [requests.put]. *)
Record Request := {
  req_method : string;
  req_url : string;
  req_json : gmap string string;
  req_headers : gmap string string;
  req_timeout : Z
}.

(** The part of a [requests.Response] the script and [raise_for_status]
    look at. *)
Record Response := {
  status_code : Z;
  reason : string;
  url : string
}.

(** What the process has written and which HTTP calls it has made. *)
Record World := {
  stdout : list string;
  stderr : list string;
  http_calls : list Request
}.

Definition initial_world : World :=
  {| stdout := []; stderr := []; http_calls := [] |}.

Inductive result (A : Type) :=
| Returned (a : A)
| Raised (e : Exc.t).
Arguments Returned {A} a.
Arguments Raised {A} e.

(** Computations of the script: they read and extend the world and either
    return a value or raise. *)
Definition Run (A : Type) : Type := World → result A * World.

Definition ret {A} (a : A) : Run A := λ w, (Returned a, w).

Definition raise {A} (e : Exc.t) : Run A := λ w, (Raised e, w).

Definition bind {A B} (m : Run A) (k : A → Run B) : Run B :=
  λ w, match m w with
       | (Returned a, w') => k a w'
       | (Raised e, w') => (Raised e, w')
       end.

Notation "x <- m ;; k" := (bind m (λ x, k))
  (at level 100, m at next level, right associativity).
Notation "m ;;; k" := (bind m (λ _, k))
  (at level 100, right associativity).

(** [try: body except c1: h1 except c2: h2 ...]: the first handler whose
    class the exception is an instance of runs; without one the exception
    propagates. *)
Fixpoint select_handler {A} (e : Exc.t) (handlers : list (Exc.class * (Exc.t → Run A)))
    : option (Exc.t → Run A) :=
  match handlers with
  | [] => None
  | (c, h) :: rest => if Exc.isinstance e c then Some h else select_handler e rest
  end.

Definition try_except {A} (body : Run A) (handlers : list (Exc.class * (Exc.t → Run A)))
    : Run A :=
  λ w, match body w with
       | (Returned a, w') => (Returned a, w')
       | (Raised e, w') =>
           match select_handler e handlers with
           | Some h => h e w'
           | None => (Raised e, w')
           end
       end.

(** [print(line)] and [print(line, file=sys.stderr)] *)
Definition print (line : string) : Run unit :=
  λ w, (Returned (), {| stdout := stdout w ++ [line]; stderr := stderr w;
                        http_calls := http_calls w |}).

Definition print_stderr (line : string) : Run unit :=
  λ w, (Returned (), {| stdout := stdout w; stderr := stderr w ++ [line];
                        http_calls := http_calls w |}).

(** [sys.exit(code)] raises [SystemExit]. *)
Definition sys_exit {A} (code : Z) : Run A :=
  raise {| Exc.cls := Exc.SystemExit; Exc.message := pretty code; Exc.code := code |}.

(** How the interpreter ends the process: [SystemExit] gives its code, a
    normal return gives 0, any other exception that reaches the top level
    is unhandled (the interpreter prints a traceback and the status is 1). *)
Inductive termination :=
| Exited (code : Z)
| Unhandled (e : Exc.t).

Definition terminate {A} (r : result A) : termination :=
  match r with
  | Returned _ => Exited 0
  | Raised e =>
      if Exc.isinstance e Exc.SystemExit then Exited (Exc.code e) else Unhandled e
  end.

Definition exit_status (t : termination) : Z :=
  match t with
  | Exited c => c
  | Unhandled _ => 1
  end.

(** ** The library calls of the delivery client *)

Module Lib.

Fixpoint mem (c : ascii) (s : string) : bool :=
  match s with
  | EmptyString => false
  | String a s' => if decide (a = c) then true else mem c s'
  end.

(** One hexadecimal digit of a value in 0..15. *)
Definition hex_digit (digits : string) (d : Z) : ascii :=
  default "0"%char (String.get (Z.to_nat d) digits).

Definition lower_hex : string := "0123456789abcdef".
Definition upper_hex : string := "0123456789ABCDEF".

(** *** [urllib.parse.quote], which [requests.utils.quote] is *)

Definition ALWAYS_SAFE : string :=
  "ABCDEFGHIJKLMNOPQRSTUVWXYZabcdefghijklmnopqrstuvwxyz0123456789_.-~".

(** A byte that is always safe or listed in [safe] stands for itself, any
    other byte [b] becomes ['%{:02X}'.format(b)]. *)
Definition quote_byte (safe : string) (c : ascii) : string :=
  if mem c ALWAYS_SAFE || mem c safe then String c ""
  else
    let b := Z.of_N (N_of_ascii c) in
    String "%"%char
      (String (hex_digit upper_hex (b / 16)) (String (hex_digit upper_hex (b mod 16)) "")).

(** [quote_from_bytes(bs, safe=safe)], byte by byte. *)
Fixpoint quote_from_bytes (bs : string) (safe : string) : string :=
  match bs with
  | EmptyString => EmptyString
  | String c bs' => quote_byte safe c +:+ quote_from_bytes bs' safe
  end.

(** A continuation byte of UTF-8. *)
Definition continuation (c : ascii) : bool :=
  let b := N_of_ascii c in ((0x80 <=? b) && (b <=? 0xBF))%N.

(** Well-formed UTF-8: no stray or missing continuation byte, no overlong
    form, no surrogate, nothing above U+10FFFF. These are the byte strings
    the interpreter decodes without surrogate escapes, that is the values
    whose [str] can be encoded with [encode('utf-8', 'strict')]. *)
Fixpoint valid_utf8 (s : string) : bool :=
  match s with
  | EmptyString => true
  | String c0 s1 =>
      let b0 := N_of_ascii c0 in
      if (b0 <? 0x80)%N then valid_utf8 s1
      else
        match s1 with
        | EmptyString => false
        | String c1 s2 =>
            let b1 := N_of_ascii c1 in
            if ((0xC2 <=? b0) && (b0 <=? 0xDF))%N then continuation c1 && valid_utf8 s2
            else
              match s2 with
              | EmptyString => false
              | String c2 s3 =>
                  if ((0xE0 <=? b0) && (b0 <=? 0xEF))%N then
                    (if (b0 =? 0xE0)%N then (0xA0 <=? b1) && (b1 <=? 0xBF)
                     else if (b0 =? 0xED)%N then (0x80 <=? b1) && (b1 <=? 0x9F)
                     else continuation c1)%N
                    && continuation c2 && valid_utf8 s3
                  else
                    match s3 with
                    | EmptyString => false
                    | String c3 s4 =>
                        if ((0xF0 <=? b0) && (b0 <=? 0xF4))%N then
                          (if (b0 =? 0xF0)%N then (0x90 <=? b1) && (b1 <=? 0xBF)
                           else if (b0 =? 0xF4)%N then (0x80 <=? b1) && (b1 <=? 0x8F)
                           else continuation c1)%N
                          && continuation c2 && continuation c3 && valid_utf8 s4
                        else false
                    end
              end
        end
  end.

(** The [UnicodeEncodeError] of [str.encode('utf-8', 'strict')] on a string
    with a lone surrogate; [message] holds the reason the error gives. *)
Definition surrogates_not_allowed : Exc.t :=
  {| Exc.cls := Exc.UnicodeEncodeError; Exc.message := "surrogates not allowed";
     Exc.code := 0 |}.

(** [quote(s, safe=safe)] for a [str]: the string is encoded as strict
    UTF-8, which raises for a string that holds a lone surrogate, and the
    bytes are quoted. *)
Definition quote (s : string) (safe : string) : Run string :=
  if valid_utf8 s then ret (quote_from_bytes s safe) else raise surrogates_not_allowed.

(** *** [str(uuid.uuid4())]

    [uuid4()] is [UUID(bytes=os.urandom(16), version=4)]: the 16 bytes are
    read as a 128-bit integer, the variant and version bits are
    overwritten, and [str] prints it as ['%032x'] cut into groups of
    8-4-4-4-12 digits. [random] stands for the bytes drawn. *)

Definition uuid4_int (random : Z) : Z :=
  let int := random mod 2 ^ 128 in
  let int := Z.land int (Z.lnot (Z.shiftl 0xc000 48)) in
  let int := Z.lor int (Z.shiftl 0x8000 48) in
  let int := Z.land int (Z.lnot (Z.shiftl 0xf000 64)) in
  Z.lor int (Z.shiftl 4 76).

(** The hexadecimal digit number [k] of [n], counted from the least
    significant one. *)
Definition hex_digit_at (n k : Z) : ascii :=
  hex_digit lower_hex (Z.land (Z.shiftr n (4 * k)) 15).

(** ['%0<width>x' % n] for [0 <= n < 16 ^ width], most significant digit
    first. *)
Fixpoint hex_width (width : nat) (n : Z) : string :=
  match width with
  | O => EmptyString
  | S w => String (hex_digit_at n (Z.of_nat w)) (hex_width w n)
  end.

(** [s[i:j]] and [s[i:]] *)
Definition slice (i j : nat) (s : string) : string := String.substring i (j - i) s.
Definition slice_from (i : nat) (s : string) : string :=
  String.substring i (String.length s - i) s.

Definition uuid_str (int : Z) : string :=
  let hex := hex_width 32 int in
  slice 0 8 hex +:+ "-" +:+ slice 8 12 hex +:+ "-" +:+ slice 12 16 hex +:+ "-" +:+
  slice 16 20 hex +:+ "-" +:+ slice_from 20 hex.

Definition uuid4_str (random : Z) : string := uuid_str (uuid4_int random).

(** *** [Response.raise_for_status] *)

Definition http_error_msg (response : Response) : string :=
  if (400 <=? status_code response) && (status_code response <? 500) then
    pretty (status_code response) +:+ " Client Error: " +:+ reason response +:+
    " for url: " +:+ url response
  else if (500 <=? status_code response) && (status_code response <? 600) then
    pretty (status_code response) +:+ " Server Error: " +:+ reason response +:+
    " for url: " +:+ url response
  else "".

Definition raise_for_status (response : Response) : Run unit :=
  let http_error_msg := http_error_msg response in
  if Str.truthy http_error_msg then
    raise {| Exc.cls := Exc.HTTPError; Exc.message := http_error_msg; Exc.code := 0 |}
  else ret ().

End Lib.

(** ** The script *)

Section Script.

(** [str.upper] *)
Variable upper : string → string.

(** The 16 bytes [uuid.uuid4()] draws in this run, as an integer. *)
Variable random : Z.

(** What [requests.put] does with a request: it returns a response or it
    raises. *)
Variable network : Request → result Response.

(** [requests.put(url, json=..., headers=..., timeout=...)] *)
Definition requests_put (url : string) (json headers : gmap string string) (timeout : Z)
    : Run Response :=
  λ w,
    let request := {| req_method := "PUT"; req_url := url; req_json := json;
                      req_headers := headers; req_timeout := timeout |} in
    (network request,
     {| stdout := stdout w; stderr := stderr w;
        http_calls := http_calls w ++ [request] |}).

Definition get_required_env (environ : gmap string string) (name : string) : Run string :=
  let value := environ !! name in
  if negb (Str.truthy_opt value) then
    print_stderr ("ERROR: Missing required environment variable: " +:+ name) ;;;
    sys_exit EXIT_FAILED
  else ret (default "" value).

Definition send_to_matrix (homeserver access_token room_id plain_text html_text : string)
    : Run bool :=
  let txn_id := Lib.uuid4_str random in
  encoded_room_id <- Lib.quote room_id "" ;;
  let url := "https://" +:+ homeserver +:+ "/_matrix/client/v3/rooms/" +:+ encoded_room_id +:+
             "/send/m.room.message/" +:+ txn_id in
  let headers : gmap string string :=
    <["Authorization" := "Bearer " +:+ access_token]>
    (<["Content-Type" := "application/json"]> ∅) in
  let payload : gmap string string :=
    <["formatted_body" := html_text]>
    (<["format" := "org.matrix.custom.html"]>
    (<["body" := plain_text]>
    (<["msgtype" := "m.text"]> ∅))) in
  try_except
    (response <- requests_put url payload headers REQUEST_TIMEOUT ;;
     Lib.raise_for_status response ;;;
     print "OK: Message sent successfully" ;;;
     ret true)
    [(Exc.Timeout, λ _,
        print_stderr "ERROR: Request timed out" ;;; ret false);
     (Exc.ConnectionError, λ err,
        print_stderr ("ERROR: Could not connect to server: " +:+ Exc.message err) ;;;
        ret false);
     (Exc.HTTPError, λ err,
        print_stderr ("ERROR: HTTP error: " +:+ Exc.message err) ;;; ret false);
     (Exc.RequestException, λ err,
        print_stderr ("ERROR: Request failed: " +:+ Exc.message err) ;;; ret false)].

Definition main (environ : gmap string string) : Run unit :=
  homeserver <- get_required_env environ "NOTIFY_PARAMETER_1" ;;
  access_token <- get_required_env environ "NOTIFY_PARAMETER_2" ;;
  room_id <- get_required_env environ "NOTIFY_PARAMETER_3" ;;
  let '(plain_text, html_text) := build_message upper environ in
  success <- send_to_matrix homeserver access_token room_id plain_text html_text ;;
  if success : bool then sys_exit EXIT_SUCCESS else sys_exit EXIT_RETRY.

(** What the interpreter writes to standard error for an exception that
    reaches the top level: the lines of the traceback, which end with the
    class and the text of the exception. *)
Variable traceback : Exc.t → list string.

(** The end of the process: after [sys.exit] nothing more is written, for
    an unhandled exception the interpreter writes the traceback. *)
Definition finish (t : termination) (w : World) : termination * World :=
  match t with
  | Exited c => (Exited c, w)
  | Unhandled e =>
      (Unhandled e,
       {| stdout := stdout w; stderr := stderr w ++ traceback e;
          http_calls := http_calls w |})
  end.

(** One run of the process in a given environment: how it ends, and what
    has been written and sent by then. *)
Definition run_script (environ : gmap string string) : termination * World :=
  let '(r, w) := main environ initial_world in finish (terminate r) w.

End Script.

(** ** The plain-text layout as the specification words it

    First line, then the Service line exactly for [kind = SERVICE], then the
    State line and the Output line, each line but the last followed by a
    newline. *)

Definition plain_text_spec
    (emoji kind notificationType hostName serviceName previousState currentState
       outputText : string) : string :=
  emoji +:+ " " +:+ kind +:+ " " +:+ notificationType +:+ ": " +:+ hostName +:+ Str.newline +:+
  (if decide (kind = "SERVICE") then "Service: " +:+ serviceName +:+ Str.newline else "") +:+
  "State: " +:+ previousState +:+ " → " +:+ currentState +:+ Str.newline +:+
  "Output: " +:+ outputText.

(** ** Vocabulary of the statements *)

(** The names of the three connection parameters, in the order [main] reads
    them. *)
Definition PARAMETER_1 : string := "NOTIFY_PARAMETER_1".
Definition PARAMETER_2 : string := "NOTIFY_PARAMETER_2".
Definition PARAMETER_3 : string := "NOTIFY_PARAMETER_3".

(** A variable is set when [get_required_env] accepts it: present and not
    empty. *)
Definition is_set (environ : gmap string string) (name : string) : bool :=
  Str.truthy_opt (environ !! name).

(** The world of a run that stopped on a missing parameter: one diagnostic
    on standard error, nothing else. *)
Definition missing_world (name : string) : World :=
  {| stdout := [];
     stderr := ["ERROR: Missing required environment variable: " +:+ name];
     http_calls := [] |}.

(** The data of a notification that the plain text carries. *)
Definition content_fields (ctx : NotificationContext) : list string :=
  [get_emoji (state ctx); what ctx; notification_type ctx; hostname ctx] ++
  (if is_service ctx then [service_name ctx] else []) ++
  [previous_state ctx; state ctx; output ctx].

(** The same notification with another site and timestamp. *)
Definition with_footer (ctx : NotificationContext) (site' timestamp' : string)
    : NotificationContext :=
  {| what := what ctx; notification_type := notification_type ctx;
     hostname := hostname ctx; site := site'; timestamp := timestamp';
     state := state ctx; previous_state := previous_state ctx;
     output := output ctx; service_name := service_name ctx |}.

(** The request [send_to_matrix] is expected to send. *)
Definition matrix_request (random : Z)
    (homeserver access_token room_id plain_text html_text : string) : Request :=
  {| req_method := "PUT";
     req_url := "https://" +:+ homeserver +:+ "/_matrix/client/v3/rooms/" +:+
                Lib.quote_from_bytes room_id "" +:+ "/send/m.room.message/" +:+
                Lib.uuid4_str random;
     req_json := list_to_map [("msgtype", "m.text"); ("body", plain_text);
                              ("format", "org.matrix.custom.html");
                              ("formatted_body", html_text)];
     req_headers := list_to_map [("Authorization", "Bearer " +:+ access_token);
                                 ("Content-Type", "application/json")];
     req_timeout := 15 |}.

(** Percent-encoding of a path segment as the specification words it: a
    character of the unreserved set (letters, digits, [-], [.], [_], [~])
    stands for itself, every other byte is written [%XY] with [XY] its value
    in two hexadecimal digits. *)
Definition unreserved (c : ascii) : bool :=
  let n := N_of_ascii c in
  ((65 <=? n) && (n <=? 90) || (97 <=? n) && (n <=? 122) || (48 <=? n) && (n <=? 57) ||
   (n =? 45) || (n =? 46) || (n =? 95) || (n =? 126))%N.

(** The value of a hexadecimal digit, upper case. *)
Definition hex_value (c : ascii) : option Z :=
  let n := Z.of_N (N_of_ascii c) in
  if (48 <=? n) && (n <=? 57) then Some (n - 48)
  else if (65 <=? n) && (n <=? 70) then Some (n - 55)
  else None.



(** A string matches a pattern when it has one character per entry of the
    pattern, each among the characters the entry allows. *)
Fixpoint matches (pattern : list string) (s : string) : bool :=
  match pattern, s with
  | [], EmptyString => true
  | allowed :: pattern', String c s' => Lib.mem c allowed && matches pattern' s'
  | _, _ => false
  end.

(** The canonical form of a version-4 UUID: lower-case hexadecimal digits in
    groups of 8-4-4-4-12 separated by hyphens, the first digit of the third
    group being 4 and the first digit of the fourth group one of 8, 9, a, b. *)
Definition UUID4_PATTERN : list string :=
  replicate 8 Lib.lower_hex ++ ["-"] ++ replicate 4 Lib.lower_hex ++ ["-"] ++
  ["4"] ++ replicate 3 Lib.lower_hex ++ ["-"] ++
  ["89ab"] ++ replicate 3 Lib.lower_hex ++ ["-"] ++ replicate 12 Lib.lower_hex.

Definition canonical_uuid4 (s : string) : bool := matches UUID4_PATTERN s.

(** The 32 digits of a hyphenated UUID. *)
Definition unhyphen (s : string) : string :=
  Lib.slice 0 8 s +:+ Lib.slice 9 13 s +:+ Lib.slice 14 18 s +:+ Lib.slice 19 23 s +:+
  Lib.slice_from 24 s.

(** The 122 bits of the random draw that reach the UUID, and the 6 bits
    that version 4 fixes. *)
Definition UUID4_FREE_BITS : Z := 0xffffffffffff0fff3fffffffffffffff.
Definition UUID4_FIXED_BITS : Z := 0x00000000000040008000000000000000.

(** The two observable outcomes of a delivery attempt: exit code 0 with the
    success line on standard output, and exit code 1 with one diagnostic on
    standard error. *)
Definition delivered (run : termination * World) : Prop :=
  run.1 = Exited 0 ∧ stdout run.2 = ["OK: Message sent successfully"] ∧ stderr run.2 = [].

Definition retryable (run : termination * World) (diagnostic : string) : Prop :=
  run.1 = Exited 1 ∧ stdout run.2 = [] ∧ stderr run.2 = [diagnostic].

(** ** Sample inputs *)

Definition example_environ : gmap string string :=
  list_to_map
    [("NOTIFY_PARAMETER_1", "matrix.example.org");
     ("NOTIFY_PARAMETER_2", "syt_secret");
     ("NOTIFY_PARAMETER_3", "!abc123:example.org");
     ("NOTIFY_WHAT", "SERVICE");
     ("NOTIFY_NOTIFICATIONTYPE", "PROBLEM");
     ("NOTIFY_HOSTNAME", "web01");
     ("NOTIFY_SERVICEDESC", "HTTP");
     ("NOTIFY_SERVICESHORTSTATE", "CRIT");
     ("NOTIFY_PREVIOUSSERVICEHARDSHORTSTATE", "OK");
     ("NOTIFY_SERVICEOUTPUT", "connection refused")].

(** A server that answers every request with the given status. *)
Definition respond (status : Z) (reason : string) : Request → result Response :=
  λ request, Returned {| status_code := status; reason := reason; url := req_url request |}.

(** A traceback as the interpreter prints it, the frames left out. *)
Definition example_traceback : Exc.t → list string :=
  λ e, ["Traceback (most recent call last):"; "  ..."; Exc.message e].

(** A room identifier that is not valid UTF-8: the byte 0xFF never occurs in
    UTF-8. *)
Definition invalid_room_id : string :=
  "!abc" +:+ String "255"%char "" +:+ ":example.org".

(** A call of [requests.put] that raises. *)
Definition fail_with (c : Exc.class) (message : string) : Request → result Response :=
  λ _, Raised {| Exc.cls := c; Exc.message := message; Exc.code := 0 |}.

(** ** Vocabulary of the further properties *)

(** The environment variables [build_message] reads: the kind, the common
    fields, the service fields and the host fields. *)
Definition COMMON_VARIABLES : list string :=
  ["NOTIFY_NOTIFICATIONTYPE"; "NOTIFY_HOSTNAME"; "OMD_SITE"; "NOTIFY_SHORTDATETIME"].

Definition SERVICE_VARIABLES : list string :=
  ["NOTIFY_SERVICESHORTSTATE"; "NOTIFY_PREVIOUSSERVICEHARDSHORTSTATE";
   "NOTIFY_SERVICEOUTPUT"; "NOTIFY_SERVICEDESC"].

Definition HOST_VARIABLES : list string :=
  ["NOTIFY_HOSTSHORTSTATE"; "NOTIFY_PREVIOUSHOSTHARDSHORTSTATE"; "NOTIFY_HOSTOUTPUT"].

Definition MESSAGE_VARIABLES : list string :=
  "NOTIFY_WHAT" :: COMMON_VARIABLES ++ SERVICE_VARIABLES ++ HOST_VARIABLES.

(** How often a character occurs in a string. *)
Fixpoint count_char (c : ascii) (s : string) : nat :=
  match s with
  | EmptyString => O
  | String a s' => (if decide (a = c) then 1 else 0) + count_char c s'
  end.

(** The fields of a notification that are written into the plain text. *)
Definition text_fields (ctx : NotificationContext) : list string :=
  [what ctx; notification_type ctx; hostname ctx] ++
  (if is_service ctx then [service_name ctx] else []) ++
  [previous_state ctx; state ctx; output ctx].

(** The three connection parameters are all set. *)
Definition configured (environ : gmap string string) : bool :=
  is_set environ PARAMETER_1 && is_set environ PARAMETER_2 && is_set environ PARAMETER_3.

(** The room identifier of the environment can be encoded. *)
Definition room_encodable (environ : gmap string string) : bool :=
  Lib.valid_utf8 (default "" (environ !! PARAMETER_3)).

(** A status that [raise_for_status] turns into an [HTTPError]. *)
Definition error_status (status : Z) : bool := (400 <=? status) && (status <? 600).

(** The request a configured run sends. *)
Definition run_request (upper : string → string) (random : Z)
    (environ : gmap string string) : Request :=
  matrix_request random (default "" (environ !! PARAMETER_1))
    (default "" (environ !! PARAMETER_2)) (default "" (environ !! PARAMETER_3))
    (build_message upper environ).1 (build_message upper environ).2.

(** * Properties *)

(** ** Strings *)

Module StrFacts.
Import Str.

Lemma app_nil_l (b : string) : "" +:+ b = b.
Proof. reflexivity. Qed.

Lemma app_cons (x : ascii) (a b : string) : String x a +:+ b = String x (a +:+ b).
Proof. reflexivity. Qed.

Lemma app_assoc (a b c : string) : (a +:+ b) +:+ c = a +:+ (b +:+ c).
Proof. induction a as [|x a IH]; [done | by rewrite !app_cons, IH]. Qed.

Lemma app_nil_r (a : string) : a +:+ "" = a.
Proof. induction a as [|x a IH]; [done | by rewrite app_cons, IH]. Qed.

Lemma app_length (a b : string) :
  String.length (a +:+ b) = (String.length a + String.length b)%nat.
Proof. induction a as [|x a IH]; [done | by rewrite app_cons; simpl; rewrite IH]. Qed.

Lemma Substring_refl (s : string) : Substring s s.
Proof. exists "", "". by rewrite app_nil_r. Qed.

Lemma Substring_here (sub post : string) : Substring sub (sub +:+ post).
Proof. by exists "", post. Qed.

Lemma Substring_app_r (sub a b : string) : Substring sub b → Substring sub (a +:+ b).
Proof.
  intros (pre & post & ->). exists (a +:+ pre), post. by rewrite app_assoc.
Qed.

Lemma Substring_app_l (sub a b : string) : Substring sub a → Substring sub (a +:+ b).
Proof.
  intros (pre & post & ->). exists pre, (post +:+ b). by rewrite !app_assoc.
Qed.

Lemma Substring_trans (a b c : string) : Substring a b → Substring b c → Substring a c.
Proof.
  intros (p1 & q1 & ->) Hbc. destruct Hbc as (p2 & q2 & ->).
  apply Substring_app_r, Substring_app_l, Substring_app_r, Substring_here.
Qed.

Lemma Substring_join (sep : string) (parts : list string) (x : string) :
  x ∈ parts → Substring x (join sep parts).
Proof.
  induction parts as [|p rest IH]; intros Hin.
  - by apply elem_of_nil in Hin.
  - apply elem_of_cons in Hin. destruct rest as [|q rest].
    + destruct Hin as [->|Hin]; [apply Substring_refl | by apply elem_of_nil in Hin].
    + change (join sep (p :: q :: rest)) with (p +:+ sep +:+ join sep (q :: rest)).
      destruct Hin as [->|Hin]; [apply Substring_here |].
      by apply Substring_app_r, Substring_app_r, IH.
Qed.

Lemma Substring_nonempty (sub s : string) : Substring sub s → sub ≠ "" → s ≠ "".
Proof.
  intros (pre & post & ->) Hsub Hs.
  destruct pre; [|done]. destruct sub; [done | discriminate].
Qed.

Lemma starts_with_spec (p s : string) :
  starts_with p s = true ↔ ∃ post, s = p +:+ post.
Proof.
  revert s. induction p as [|a p IH]; intros s; simpl.
  - split; [intros _; by exists s | done].
  - destruct s as [|b s].
    + split; [done | intros [post Hp]; discriminate].
    + case_decide as Hab.
      * subst b. rewrite IH.
        split; intros [post Hp]; exists post; rewrite app_cons in *; congruence.
      * split; [done | intros [post Hp]; rewrite app_cons in Hp; congruence].
Qed.

Lemma contains_spec (sub s : string) : contains sub s = true ↔ Substring sub s.
Proof.
  induction s as [|b s IH].
  - simpl. rewrite orb_false_r, starts_with_spec. split.
    + intros [post ->]. apply Substring_here.
    + intros (pre & post & Hs). destruct pre; [by exists post | discriminate].
  - change (contains sub (String b s))
      with (starts_with sub (String b s) || contains sub s).
    rewrite orb_true_iff, starts_with_spec, IH. split.
    + intros [[post ->]|Hs]; [apply Substring_here |].
      by apply (Substring_app_r sub (String b "") s).
    + intros (pre & post & Hs). destruct pre as [|c pre].
      * left. by exists post.
      * right. exists pre, post. rewrite app_cons in Hs. congruence.
Qed.

Lemma not_contains_spec (sub s : string) : contains sub s = false ↔ ¬ Substring sub s.
Proof. rewrite <- contains_spec. by destruct (contains sub s). Qed.

End StrFacts.

(** ** Emoji selection *)

(** C6, as the script has it: [get_emoji] is an exact, case-sensitive table
    lookup. It returns the check mark for "OK" and "UP", the warning sign
    followed by one space for "WARN", the siren for "CRIT" and "DOWN", the
    question mark for "UNKNOWN", and the information sign followed by one
    space for every other string. *)
Theorem get_emoji_table (state : string) :
  get_emoji state =
    if decide (state = "OK") then "✅"
    else if decide (state = "UP") then "✅"
    else if decide (state = "WARN") then "⚠️ "
    else if decide (state = "CRIT") then "🚨"
    else if decide (state = "DOWN") then "🚨"
    else if decide (state = "UNKNOWN") then "❔"
    else "ℹ️ ".
Proof.
  unfold get_emoji, STATE_EMOJIS.
  rewrite !lookup_insert, lookup_empty.
  repeat case_decide; simplify_eq; reflexivity.
Qed.

(** C6 as worded fails: for "WARN" and for an unmapped state the value is
    not the bare emoji, it carries a trailing space. *)
Lemma get_emoji_not_bare :
  get_emoji "WARN" ≠ "⚠️" ∧ get_emoji "frobnicate" ≠ "ℹ️" ∧
  get_emoji "WARN" = "⚠️" +:+ " " ∧ get_emoji "frobnicate" = "ℹ️" +:+ " ".
Proof. vm_compute. repeat split; discriminate. Qed.

Example get_emoji_case_sensitive : get_emoji "ok" = "ℹ️ " ∧ get_emoji "OK" = "✅".
Proof. by vm_compute. Qed.

(** ** The message builder *)

Section BuilderFacts.
Import Str StrFacts.

Lemma join_cons2 (sep p q : string) (rest : list string) :
  join sep (p :: q :: rest) = p +:+ sep +:+ join sep (q :: rest).
Proof. reflexivity. Qed.

Lemma plain_lines_service (ctx : NotificationContext) :
  what ctx = "SERVICE" →
  plain_lines ctx =
    [get_emoji (state ctx) +:+ " " +:+ what ctx +:+ " " +:+ notification_type ctx +:+ ": " +:+
       hostname ctx;
     "Service: " +:+ service_name ctx;
     "State: " +:+ previous_state ctx +:+ " → " +:+ state ctx;
     "Output: " +:+ output ctx].
Proof.
  intros Hs. unfold plain_lines, is_service. by rewrite bool_decide_eq_true_2.
Qed.

Lemma plain_lines_host (ctx : NotificationContext) :
  what ctx ≠ "SERVICE" →
  plain_lines ctx =
    [get_emoji (state ctx) +:+ " " +:+ what ctx +:+ " " +:+ notification_type ctx +:+ ": " +:+
       hostname ctx;
     "State: " +:+ previous_state ctx +:+ " → " +:+ state ctx;
     "Output: " +:+ output ctx].
Proof.
  intros Hs. unfold plain_lines, is_service. by rewrite bool_decide_eq_false_2.
Qed.

Lemma render_plain (ctx : NotificationContext) :
  (render_message ctx).1 =
    plain_text_spec (get_emoji (state ctx)) (what ctx) (notification_type ctx)
      (hostname ctx) (service_name ctx) (previous_state ctx) (state ctx) (output ctx).
Proof.
  unfold render_message, plain_text, plain_text_spec; simpl.
  destruct (decide (what ctx = "SERVICE")) as [Hs|Hs].
  - rewrite (plain_lines_service ctx Hs), !join_cons2. simpl.
    fold Str.newline. by rewrite !app_assoc.
  - rewrite (plain_lines_host ctx Hs), !join_cons2. simpl.
    fold Str.newline. by rewrite !app_assoc.
Qed.

End BuilderFacts.

(** C5: for every notification context the plain-text body is the first line
    with emoji, kind, notification type and host name, the Service line
    exactly when the kind is SERVICE, the State line and the Output line,
    joined with newlines; and this is the first component of what
    [build_message] returns in every environment. *)
Theorem plain_text_layout :
  (∀ ctx : NotificationContext,
     (render_message ctx).1 =
       plain_text_spec (get_emoji (state ctx)) (what ctx) (notification_type ctx)
         (hostname ctx) (service_name ctx) (previous_state ctx) (state ctx) (output ctx)) ∧
  (∀ (upper : string → string) (environ : gmap string string),
     let ctx := read_context upper environ in
     (build_message upper environ).1 =
       plain_text_spec (get_emoji (state ctx)) (what ctx) (notification_type ctx)
         (hostname ctx) (service_name ctx) (previous_state ctx) (state ctx) (output ctx)).
Proof.
  split; [apply render_plain | intros upper environ ctx; apply render_plain].
Qed.

Section BuilderContent.
Import Str StrFacts.

Lemma html_lines_service (ctx : NotificationContext) :
  what ctx = "SERVICE" →
  html_lines ctx =
    ["<p><b>" +:+ get_emoji (state ctx) +:+ " " +:+ what ctx +:+ " " +:+
       notification_type ctx +:+ "</b></p>";
     "<b>Host:</b> " +:+ hostname ctx;
     "<b>Service:</b> " +:+ service_name ctx;
     "<b>State:</b> " +:+ previous_state ctx +:+ " &rarr; <b>" +:+ state ctx +:+ "</b>";
     "<b>Output:</b> <code>" +:+ output ctx +:+ "</code>";
     "<p><small>Site: " +:+ site ctx +:+ " | " +:+ timestamp ctx +:+ "</small></p>"].
Proof.
  intros Hs. unfold html_lines, is_service. by rewrite bool_decide_eq_true_2.
Qed.

Lemma html_lines_host (ctx : NotificationContext) :
  what ctx ≠ "SERVICE" →
  html_lines ctx =
    ["<p><b>" +:+ get_emoji (state ctx) +:+ " " +:+ what ctx +:+ " " +:+
       notification_type ctx +:+ "</b></p>";
     "<b>Host:</b> " +:+ hostname ctx;
     "<b>State:</b> " +:+ previous_state ctx +:+ " &rarr; <b>" +:+ state ctx +:+ "</b>";
     "<b>Output:</b> <code>" +:+ output ctx +:+ "</code>";
     "<p><small>Site: " +:+ site ctx +:+ " | " +:+ timestamp ctx +:+ "</small></p>"].
Proof.
  intros Hs. unfold html_lines, is_service. by rewrite bool_decide_eq_false_2.
Qed.

(** Every line of a body, and every part of a line, occurs in the body. *)
Lemma in_plain_text (ctx : NotificationContext) (part line : string) :
  line ∈ plain_lines ctx → Substring part line → Substring part (render_message ctx).1.
Proof.
  intros Hin Hpart. apply (Substring_trans _ line); [done |].
  by apply Substring_join.
Qed.

Lemma in_html_text (ctx : NotificationContext) (part line : string) :
  line ∈ html_lines ctx → Substring part line → Substring part (render_message ctx).2.
Proof.
  intros Hin Hpart. apply (Substring_trans _ line); [done |].
  by apply Substring_join.
Qed.

Lemma state_line_in_plain (ctx : NotificationContext) :
  "State: " +:+ previous_state ctx +:+ " → " +:+ state ctx ∈ plain_lines ctx.
Proof.
  destruct (decide (what ctx = "SERVICE")) as [Hs|Hs];
    [rewrite (plain_lines_service ctx Hs) | rewrite (plain_lines_host ctx Hs)];
    set_solver.
Qed.

Lemma output_line_in_plain (ctx : NotificationContext) :
  "Output: " +:+ output ctx ∈ plain_lines ctx.
Proof.
  destruct (decide (what ctx = "SERVICE")) as [Hs|Hs];
    [rewrite (plain_lines_service ctx Hs) | rewrite (plain_lines_host ctx Hs)];
    set_solver.
Qed.

Lemma state_line_in_html (ctx : NotificationContext) :
  "<b>State:</b> " +:+ previous_state ctx +:+ " &rarr; <b>" +:+ state ctx +:+ "</b>"
    ∈ html_lines ctx.
Proof.
  destruct (decide (what ctx = "SERVICE")) as [Hs|Hs];
    [rewrite (html_lines_service ctx Hs) | rewrite (html_lines_host ctx Hs)];
    set_solver.
Qed.

Lemma output_line_in_html (ctx : NotificationContext) :
  "<b>Output:</b> <code>" +:+ output ctx +:+ "</code>" ∈ html_lines ctx.
Proof.
  destruct (decide (what ctx = "SERVICE")) as [Hs|Hs];
    [rewrite (html_lines_service ctx Hs) | rewrite (html_lines_host ctx Hs)];
    set_solver.
Qed.

End BuilderContent.

(** Finds a part among the operands of a right-nested concatenation. *)
Ltac find_part :=
  repeat first
    [ apply StrFacts.Substring_refl
    | apply StrFacts.Substring_here
    | apply StrFacts.Substring_app_r ].

(** C1: the message builder is total and its bodies hold the inputs.
    For every notification context the rendering returns a pair of strings,
    both non-empty; the plain text holds the line "State: previous →
    current" and the output, the HTML holds the transition as "previous
    &rarr; <b>current</b>" and the output, so the previous state, the
    current state and the output occur unchanged in both. For every
    environment, the empty one included, [build_message] returns such a
    pair for the values of the environment itself: the state, the previous
    state and the output are those of the NOTIFY_SERVICE... variables when
    the upper-cased NOTIFY_WHAT is SERVICE and those of the NOTIFY_HOST...
    variables otherwise, each the empty string when absent. *)
Theorem build_message_total (upper : string → string) :
  (∀ ctx : NotificationContext,
     ∃ plain_text html_text : string,
       render_message ctx = (plain_text, html_text) ∧
       plain_text ≠ "" ∧ html_text ≠ "" ∧
       Str.Substring ("State: " +:+ previous_state ctx +:+ " → " +:+ state ctx) plain_text ∧
       Str.Substring (previous_state ctx +:+ " &rarr; <b>" +:+ state ctx +:+ "</b>")
         html_text ∧
       (Str.Substring (previous_state ctx) plain_text ∧
        Str.Substring (previous_state ctx) html_text) ∧
       (Str.Substring (state ctx) plain_text ∧ Str.Substring (state ctx) html_text) ∧
       (Str.Substring (output ctx) plain_text ∧ Str.Substring (output ctx) html_text)) ∧
  (∀ environ : gmap string string,
     let service := bool_decide (upper (get_env environ "NOTIFY_WHAT" "HOST") = "SERVICE") in
     let value service_variable host_variable :=
       get_env environ (if service then service_variable else host_variable) "" in
     let current := value "NOTIFY_SERVICESHORTSTATE" "NOTIFY_HOSTSHORTSTATE" in
     let previous :=
       value "NOTIFY_PREVIOUSSERVICEHARDSHORTSTATE" "NOTIFY_PREVIOUSHOSTHARDSHORTSTATE" in
     let text := value "NOTIFY_SERVICEOUTPUT" "NOTIFY_HOSTOUTPUT" in
     ∃ plain_text html_text : string,
       build_message upper environ = (plain_text, html_text) ∧
       plain_text ≠ "" ∧ html_text ≠ "" ∧
       Str.Substring ("State: " +:+ previous +:+ " → " +:+ current) plain_text ∧
       Str.Substring (previous +:+ " &rarr; <b>" +:+ current +:+ "</b>") html_text ∧
       (Str.Substring previous plain_text ∧ Str.Substring previous html_text) ∧
       (Str.Substring current plain_text ∧ Str.Substring current html_text) ∧
       (Str.Substring text plain_text ∧ Str.Substring text html_text)).
Proof.
  assert (Hrender : ∀ ctx : NotificationContext,
            (render_message ctx).1 ≠ "" ∧ (render_message ctx).2 ≠ "" ∧
            Str.Substring ("State: " +:+ previous_state ctx +:+ " → " +:+ state ctx)
              (render_message ctx).1 ∧
            Str.Substring (previous_state ctx +:+ " &rarr; <b>" +:+ state ctx +:+ "</b>")
              (render_message ctx).2 ∧
            (Str.Substring (previous_state ctx) (render_message ctx).1 ∧
             Str.Substring (previous_state ctx) (render_message ctx).2) ∧
            (Str.Substring (state ctx) (render_message ctx).1 ∧
             Str.Substring (state ctx) (render_message ctx).2) ∧
            (Str.Substring (output ctx) (render_message ctx).1 ∧
             Str.Substring (output ctx) (render_message ctx).2)).
  { intros ctx.
    assert (Hp : Str.Substring ("State: " +:+ previous_state ctx +:+ " → " +:+ state ctx)
                   (render_message ctx).1)
      by (eapply in_plain_text; [apply state_line_in_plain | find_part]).
    assert (Hh : Str.Substring
                   (previous_state ctx +:+ " &rarr; <b>" +:+ state ctx +:+ "</b>")
                   (render_message ctx).2)
      by (eapply in_html_text; [apply state_line_in_html | find_part]).
    split; [by apply (StrFacts.Substring_nonempty _ _ Hp) |].
    split.
    { apply (StrFacts.Substring_nonempty _ _ Hh). intros Heq.
      apply (f_equal String.length) in Heq.
      rewrite !StrFacts.app_length in Heq. simpl in Heq. lia. }
    repeat split; try done.
    - eapply in_plain_text; [apply state_line_in_plain | find_part].
    - eapply in_html_text; [apply state_line_in_html | find_part].
    - eapply in_plain_text; [apply state_line_in_plain | find_part].
    - eapply in_html_text; [apply state_line_in_html | find_part].
    - eapply in_plain_text; [apply output_line_in_plain | find_part].
    - eapply in_html_text; [apply output_line_in_html | find_part]. }
  split.
  - intros ctx. exists (render_message ctx).1, (render_message ctx).2.
    split; [by destruct (render_message ctx) | apply Hrender].
  - intros environ. cbv zeta. unfold build_message.
    pose proof (Hrender (read_context upper environ)) as Hctx.
    exists (render_message (read_context upper environ)).1,
           (render_message (read_context upper environ)).2.
    split; [by destruct (render_message (read_context upper environ)) |].
    assert (Hfields :
      state (read_context upper environ) =
        get_env environ
          (if bool_decide (upper (get_env environ "NOTIFY_WHAT" "HOST") = "SERVICE")
           then "NOTIFY_SERVICESHORTSTATE" else "NOTIFY_HOSTSHORTSTATE") "" ∧
      previous_state (read_context upper environ) =
        get_env environ
          (if bool_decide (upper (get_env environ "NOTIFY_WHAT" "HOST") = "SERVICE")
           then "NOTIFY_PREVIOUSSERVICEHARDSHORTSTATE"
           else "NOTIFY_PREVIOUSHOSTHARDSHORTSTATE") "" ∧
      output (read_context upper environ) =
        get_env environ
          (if bool_decide (upper (get_env environ "NOTIFY_WHAT" "HOST") = "SERVICE")
           then "NOTIFY_SERVICEOUTPUT" else "NOTIFY_HOSTOUTPUT") "").
    { unfold read_context. cbv zeta.
      by destruct (bool_decide (upper (get_env environ "NOTIFY_WHAT" "HOST") = "SERVICE")). }
    destruct Hfields as (<- & <- & <-). exact Hctx.
Qed.

(** ** What the two bodies carry *)

Section Renderings.
Import Str StrFacts.

Lemma join_sub_head (sep part p : string) (rest : list string) :
  Substring part p → Substring part (join sep (p :: rest)).
Proof.
  intros Hp. apply (Substring_trans _ p); [done |].
  apply Substring_join, list_elem_of_here.
Qed.

Lemma join_sub_tail (sep part p : string) (rest : list string) :
  Substring part (join sep rest) → Substring part (join sep (p :: rest)).
Proof.
  destruct rest as [|q rest].
  - intros (pre & post & Hs). destruct pre; [|discriminate].
    destruct part; [|discriminate]. by exists "", p.
  - intros Hs. rewrite join_cons2. by apply Substring_app_r, Substring_app_r.
Qed.

Lemma join_snoc (sep : string) (lines : list string) (p last : string) :
  join sep ((p :: lines) ++ [last]) = join sep (p :: lines) +:+ sep +:+ last.
Proof.
  revert p. induction lines as [|q lines IH]; intros p; [done |].
  change (join sep ((p :: q :: lines) ++ [last]))
    with (p +:+ sep +:+ join sep ((q :: lines) ++ [last])).
  by rewrite (IH q), join_cons2, !app_assoc.
Qed.

End Renderings.

(** Finds a part in one of the lines of a joined body. *)
Ltac find_in_text :=
  first [ apply join_sub_head; solve [find_part]
        | apply join_sub_tail; find_in_text ].

(** C9, as the script has it: for every notification context, each datum of
    the plain text (emoji, kind, notification type, host name, the service
    name when the kind is SERVICE, previous state, state, output) occurs in
    both bodies, so the HTML omits none of them; the HTML also carries the
    site and the timestamp, on which the plain text does not depend; and
    the HTML is a part that does not depend on them followed by the footer
    line with the site and the timestamp. *)
Theorem renderings_content (ctx : NotificationContext) :
  Forall (λ datum, Str.Substring datum (render_message ctx).1 ∧
                   Str.Substring datum (render_message ctx).2) (content_fields ctx) ∧
  (Str.Substring (site ctx) (render_message ctx).2 ∧
   Str.Substring (timestamp ctx) (render_message ctx).2) ∧
  (∀ site' timestamp',
     (render_message (with_footer ctx site' timestamp')).1 = (render_message ctx).1) ∧
  (∃ body, ∀ site' timestamp',
     (render_message (with_footer ctx site' timestamp')).2 =
       body +:+ "<br>" +:+ "<p><small>Site: " +:+ site' +:+ " | " +:+ timestamp' +:+
       "</small></p>").
Proof.
  unfold render_message, plain_text, content_fields, is_service. simpl.
  destruct (decide (what ctx = "SERVICE")) as [Hs|Hs].
  - rewrite (plain_lines_service ctx Hs), (html_lines_service ctx Hs).
    rewrite (bool_decide_eq_true_2 _ Hs).
    split; [repeat constructor; find_in_text |].
    split; [split; find_in_text |].
    split.
    + intros s t. by rewrite (plain_lines_service (with_footer ctx s t) Hs).
    + eexists. intros s t. rewrite (html_lines_service (with_footer ctx s t) Hs).
      cbn [with_footer what notification_type hostname site timestamp state
           previous_state output service_name].
      match goal with
      | |- Str.join _ [?a; ?b; ?c; ?d; ?e; ?f] = _ =>
          apply (join_snoc "<br>" [b; c; d; e] a f)
      end.
  - rewrite (plain_lines_host ctx Hs), (html_lines_host ctx Hs).
    rewrite (bool_decide_eq_false_2 _ Hs).
    split; [repeat constructor; find_in_text |].
    split; [split; find_in_text |].
    split.
    + intros s t. by rewrite (plain_lines_host (with_footer ctx s t) Hs).
    + eexists. intros s t. rewrite (html_lines_host (with_footer ctx s t) Hs).
      cbn [with_footer what notification_type hostname site timestamp state
           previous_state output service_name].
      match goal with
      | |- Str.join _ [?a; ?b; ?c; ?d; ?e] = _ =>
          apply (join_snoc "<br>" [b; c; d] a e)
      end.
Qed.

(** C9 as worded fails: the HTML body carries the site and the timestamp,
    which the plain text does not contain; two environments that differ
    only there have one plain text and two HTML bodies. *)
Lemma html_carries_site_and_timestamp :
  let environ : gmap string string :=
    <["OMD_SITE" := "prod1"]> (<["NOTIFY_SHORTDATETIME" := "2024-05-01 12:00:00"]> ∅) in
  let message := build_message Str.ascii_upper environ in
  (Str.Substring "prod1" message.2 ∧ ¬ Str.Substring "prod1" message.1) ∧
  (Str.Substring "2024-05-01 12:00:00" message.2 ∧
   ¬ Str.Substring "2024-05-01 12:00:00" message.1) ∧
  (build_message Str.ascii_upper ∅).1 = message.1 ∧
  (build_message Str.ascii_upper ∅).2 ≠ message.2.
Proof.
  intros environ message.
  repeat split;
    first [ apply StrFacts.contains_spec; by vm_compute
          | apply StrFacts.not_contains_spec; by vm_compute
          | by vm_compute ].
Qed.

(** ** The process *)

Section ScriptFacts.

Variable upper : string → string.
Variable random : Z.
Variable network : Request → result Response.
Variable traceback : Exc.t → list string.

Lemma get_required_env_set (environ : gmap string string) (name : string) (w : World) :
  is_set environ name = true →
  get_required_env environ name w = (Returned (default "" (environ !! name)), w).
Proof. unfold is_set, get_required_env. by intros ->. Qed.

Lemma get_required_env_unset (environ : gmap string string) (name : string) (w : World) :
  is_set environ name = false →
  get_required_env environ name w =
    (Raised {| Exc.cls := Exc.SystemExit; Exc.message := "2"; Exc.code := 2 |},
     {| stdout := stdout w;
        stderr := stderr w ++ ["ERROR: Missing required environment variable: " +:+ name];
        http_calls := http_calls w |}).
Proof. unfold is_set, get_required_env. by intros ->. Qed.

Lemma run_missing_1 (environ : gmap string string) :
  is_set environ PARAMETER_1 = false →
  run_script upper random network traceback environ = (Exited 2, missing_world PARAMETER_1).
Proof.
  intros H1. unfold run_script, main, bind.
  by rewrite (get_required_env_unset _ _ _ H1).
Qed.

Lemma run_missing_2 (environ : gmap string string) :
  is_set environ PARAMETER_1 = true → is_set environ PARAMETER_2 = false →
  run_script upper random network traceback environ = (Exited 2, missing_world PARAMETER_2).
Proof.
  intros H1 H2. unfold run_script, main, bind.
  rewrite (get_required_env_set _ _ _ H1).
  by rewrite (get_required_env_unset _ _ _ H2).
Qed.

Lemma run_missing_3 (environ : gmap string string) :
  is_set environ PARAMETER_1 = true → is_set environ PARAMETER_2 = true →
  is_set environ PARAMETER_3 = false →
  run_script upper random network traceback environ = (Exited 2, missing_world PARAMETER_3).
Proof.
  intros H1 H2 H3. unfold run_script, main, bind.
  rewrite (get_required_env_set _ _ _ H1), (get_required_env_set _ _ _ H2).
  by rewrite (get_required_env_unset _ _ _ H3).
Qed.

(** With the three parameters set, the run is the delivery attempt
    followed by the exit. *)
Lemma run_configured (environ : gmap string string) :
  is_set environ PARAMETER_1 = true → is_set environ PARAMETER_2 = true →
  is_set environ PARAMETER_3 = true →
  run_script upper random network traceback environ =
    let message := build_message upper environ in
    let attempt :=
      send_to_matrix random network (default "" (environ !! PARAMETER_1))
        (default "" (environ !! PARAMETER_2)) (default "" (environ !! PARAMETER_3))
        message.1 message.2 initial_world in
    match attempt.1 with
    | Returned true => (Exited 0, attempt.2)
    | Returned false => (Exited 1, attempt.2)
    | Raised e => finish traceback (terminate (Raised (A:=unit) e)) attempt.2
    end.
Proof.
  intros H1 H2 H3. unfold run_script, main, bind.
  rewrite (get_required_env_set _ _ _ H1), (get_required_env_set _ _ _ H2),
    (get_required_env_set _ _ _ H3).
  destruct (build_message upper environ) as [plain_text html_text]. simpl.
  destruct (send_to_matrix _ _ _ _ _ _ _ _) as [[[]|e] w]; reflexivity.
Qed.

End ScriptFacts.

(** ** The delivery client *)

Section DeliveryFacts.

Variable random : Z.
Variable network : Request → result Response.

Lemma truthy_app_cons (a b : string) (c : ascii) : Str.truthy (a +:+ String c b) = true.
Proof. by destruct a. Qed.

(** [raise_for_status] raises exactly for the statuses 400 to 599. *)
Lemma http_error_msg_truthy (response : Response) :
  Str.truthy (Lib.http_error_msg response) =
    (400 <=? status_code response) && (status_code response <? 600).
Proof.
  unfold Lib.http_error_msg.
  destruct (400 <=? status_code response) eqn:H4;
    destruct (status_code response <? 500) eqn:H5;
    destruct (500 <=? status_code response) eqn:H6;
    destruct (status_code response <? 600) eqn:H7;
    simpl; try apply truthy_app_cons; try reflexivity; lia.
Qed.

Lemma payload_eq (plain_text html_text : string) :
  (<["formatted_body" := html_text]>
     (<["format" := "org.matrix.custom.html"]>
        (<["body" := plain_text]> (<["msgtype" := "m.text"]> ∅))) : gmap string string) =
  list_to_map [("msgtype", "m.text"); ("body", plain_text);
               ("format", "org.matrix.custom.html"); ("formatted_body", html_text)].
Proof.
  apply map_eq. intros k. simpl.
  rewrite !lookup_insert. repeat case_decide; simplify_eq; reflexivity.
Qed.

(** A call of [send_to_matrix], case by case: the room identifier cannot be
    encoded and the call raises before any request, or the request is made
    and the reply decides. *)
Lemma send_to_matrix_run (homeserver access_token room_id plain_text html_text : string)
    (w : World) :
  send_to_matrix random network homeserver access_token room_id plain_text html_text w =
    let request := matrix_request random homeserver access_token room_id plain_text html_text in
    let sent := http_calls w ++ [request] in
    let failed line :=
      (Returned false,
       {| stdout := stdout w; stderr := stderr w ++ [line]; http_calls := sent |}) in
    if Lib.valid_utf8 room_id then
      match network request with
      | Returned response =>
          if (400 <=? status_code response) && (status_code response <? 600) then
            failed ("ERROR: HTTP error: " +:+ Lib.http_error_msg response)
          else
            (Returned true,
             {| stdout := stdout w ++ ["OK: Message sent successfully"];
                stderr := stderr w; http_calls := sent |})
      | Raised err =>
          if Exc.isinstance err Exc.Timeout then failed "ERROR: Request timed out"
          else if Exc.isinstance err Exc.ConnectionError then
            failed ("ERROR: Could not connect to server: " +:+ Exc.message err)
          else if Exc.isinstance err Exc.HTTPError then
            failed ("ERROR: HTTP error: " +:+ Exc.message err)
          else if Exc.isinstance err Exc.RequestException then
            failed ("ERROR: Request failed: " +:+ Exc.message err)
          else
            (Raised err, {| stdout := stdout w; stderr := stderr w; http_calls := sent |})
      end
    else (Raised Lib.surrogates_not_allowed, w).
Proof.
  unfold send_to_matrix, Lib.quote, bind at 1.
  destruct (Lib.valid_utf8 room_id); [| reflexivity].
  unfold ret at 1.
  unfold try_except, bind, requests_put, matrix_request, REQUEST_TIMEOUT.
  rewrite payload_eq. simpl.
  match goal with |- context [network ?rq] => destruct (network rq) as [response|err] end.
  - unfold Lib.raise_for_status, raise, ret.
    rewrite http_error_msg_truthy.
    destruct ((400 <=? status_code response) && (status_code response <? 600)); reflexivity.
  - destruct (Exc.isinstance err Exc.Timeout); [reflexivity |].
    destruct (Exc.isinstance err Exc.ConnectionError); [reflexivity |].
    destruct (Exc.isinstance err Exc.HTTPError); [reflexivity |].
    destruct (Exc.isinstance err Exc.RequestException); reflexivity.
Qed.

End DeliveryFacts.

(** ** Configuration errors *)

(** Membership in a list given by its elements. *)
Ltac in_list := repeat first [apply list_elem_of_here | apply list_elem_of_further].

Lemma is_set_absent (environ : gmap string string) (name : string) :
  environ !! name = None → is_set environ name = false.
Proof. unfold is_set. by intros ->. Qed.

Lemma is_set_insert_empty (environ : gmap string string) (name : string) :
  is_set (<[name := ""]> environ) name = false.
Proof. unfold is_set. by rewrite lookup_insert_eq. Qed.

Lemma is_set_delete (environ : gmap string string) (name : string) :
  is_set (delete name environ) name = false.
Proof. unfold is_set. by rewrite lookup_delete_eq. Qed.

Lemma is_set_insert_ne (environ : gmap string string) (name other value : string) :
  name ≠ other → is_set (<[name := value]> environ) other = is_set environ other.
Proof. intros Hne. unfold is_set. by rewrite lookup_insert_ne. Qed.

Lemma is_set_delete_ne (environ : gmap string string) (name other : string) :
  name ≠ other → is_set (delete name environ) other = is_set environ other.
Proof. intros Hne. unfold is_set. by rewrite lookup_delete_ne. Qed.

(** Two environments that agree on which parameters are set, one of them
    being unset, give the same run. *)
Lemma run_unset_agree (upper : string → string) (random : Z)
    (network : Request → result Response)
    (traceback : Exc.t → list string) (e1 e2 : gmap string string) :
  is_set e1 PARAMETER_1 = is_set e2 PARAMETER_1 →
  is_set e1 PARAMETER_2 = is_set e2 PARAMETER_2 →
  is_set e1 PARAMETER_3 = is_set e2 PARAMETER_3 →
  is_set e1 PARAMETER_1 && is_set e1 PARAMETER_2 && is_set e1 PARAMETER_3 = false →
  run_script upper random network traceback e1 = run_script upper random network traceback e2 ∧
  ∃ missing, missing ∈ [PARAMETER_1; PARAMETER_2; PARAMETER_3] ∧
    run_script upper random network traceback e1 = (Exited 2, missing_world missing).
Proof.
  intros E1 E2 E3 Hunset.
  destruct (is_set e1 PARAMETER_1) eqn:H1.
  - destruct (is_set e1 PARAMETER_2) eqn:H2.
    + destruct (is_set e1 PARAMETER_3) eqn:H3; [discriminate |].
      rewrite !run_missing_3 by done. split; [done |].
      exists PARAMETER_3. split; [in_list | done].
    + rewrite !run_missing_2 by done. split; [done |].
      exists PARAMETER_2. split; [in_list | done].
  - rewrite !run_missing_1 by done. split; [done |].
    exists PARAMETER_1. split; [in_list | done].
Qed.

(** C3: if one of the three connection parameters is absent from the
    environment, the run ends with exit code 2, standard error holds the one
    diagnostic naming a parameter that is not set, nothing is written to
    standard output and no HTTP call is made. The parameter named is the
    first one, in the order server, token, room, that is not set. *)
Theorem missing_parameter_is_fatal (upper : string → string) (random : Z)
    (network : Request → result Response)
    (traceback : Exc.t → list string) (environ : gmap string string) :
  environ !! PARAMETER_1 = None ∨ environ !! PARAMETER_2 = None ∨
  environ !! PARAMETER_3 = None →
  ∃ name,
    name ∈ [PARAMETER_1; PARAMETER_2; PARAMETER_3] ∧
    is_set environ name = false ∧
    run_script upper random network traceback environ =
      (Exited 2,
       {| stdout := [];
          stderr := ["ERROR: Missing required environment variable: " +:+ name];
          http_calls := [] |}) ∧
    (environ !! PARAMETER_1 = None → name = PARAMETER_1) ∧
    (is_set environ PARAMETER_1 = true → environ !! PARAMETER_2 = None →
     name = PARAMETER_2) ∧
    (is_set environ PARAMETER_1 = true → is_set environ PARAMETER_2 = true →
     name = PARAMETER_3).
Proof.
  intros Habsent.
  assert (Hcontra : is_set environ PARAMETER_1 = true → is_set environ PARAMETER_2 = true →
                    is_set environ PARAMETER_3 = true → False).
  { intros H1 H2 H3. destruct Habsent as [H|[H|H]]; apply is_set_absent in H; congruence. }
  destruct (is_set environ PARAMETER_1) eqn:H1;
    [destruct (is_set environ PARAMETER_2) eqn:H2;
       [destruct (is_set environ PARAMETER_3) eqn:H3; [by destruct Hcontra |] |] |].
  - exists PARAMETER_3. rewrite run_missing_3 by done.
    split; [in_list |]. do 2 (split; [done |]).
    repeat split; intros; repeat match goal with
      | H : _ !! _ = None |- _ => apply is_set_absent in H end; congruence.
  - exists PARAMETER_2. rewrite run_missing_2 by done.
    split; [in_list |]. do 2 (split; [done |]).
    repeat split; intros; repeat match goal with
      | H : _ !! _ = None |- _ => apply is_set_absent in H end; congruence.
  - exists PARAMETER_1. rewrite run_missing_1 by done.
    split; [in_list |]. do 2 (split; [done |]).
    repeat split; intros; congruence.
Qed.

Lemma missing_parameter_is_fatal_witness :
  (delete PARAMETER_2 example_environ !! PARAMETER_1 = None ∨
   delete PARAMETER_2 example_environ !! PARAMETER_2 = None ∨
   delete PARAMETER_2 example_environ !! PARAMETER_3 = None) ∧
  ∃ name,
    name ∈ [PARAMETER_1; PARAMETER_2; PARAMETER_3] ∧
    is_set (delete PARAMETER_2 example_environ) name = false ∧
    run_script Str.ascii_upper 0 (respond 200 "OK") example_traceback (delete PARAMETER_2 example_environ) =
      (Exited 2,
       {| stdout := [];
          stderr := ["ERROR: Missing required environment variable: " +:+ name];
          http_calls := [] |}) ∧
    (delete PARAMETER_2 example_environ !! PARAMETER_1 = None → name = PARAMETER_1) ∧
    (is_set (delete PARAMETER_2 example_environ) PARAMETER_1 = true →
     delete PARAMETER_2 example_environ !! PARAMETER_2 = None → name = PARAMETER_2) ∧
    (is_set (delete PARAMETER_2 example_environ) PARAMETER_1 = true →
     is_set (delete PARAMETER_2 example_environ) PARAMETER_2 = true → name = PARAMETER_3).
Proof.
  split; [right; left; vm_compute; reflexivity |].
  apply (missing_parameter_is_fatal Str.ascii_upper 0 (respond 200 "OK") example_traceback
           (delete PARAMETER_2 example_environ)).
  right; left; vm_compute; reflexivity.
Defined.

Lemma is_set_empty_or_deleted (environ : gmap string string) (name other : string) :
  is_set (<[name := ""]> environ) other = is_set (delete name environ) other.
Proof.
  destruct (decide (name = other)) as [->|Hne].
  - by rewrite is_set_insert_empty, is_set_delete.
  - by rewrite is_set_insert_ne, is_set_delete_ne.
Qed.

Lemma empty_like_absent (upper : string → string) (random : Z)
    (network : Request → result Response)
    (traceback : Exc.t → list string) (environ : gmap string string) (name : string) :
  name ∈ [PARAMETER_1; PARAMETER_2; PARAMETER_3] →
  (∀ w, get_required_env (<[name := ""]> environ) name w =
        get_required_env (delete name environ) name w) ∧
  (get_required_env (<[name := ""]> environ) name initial_world).2 = missing_world name ∧
  terminate (get_required_env (<[name := ""]> environ) name initial_world).1 = Exited 2 ∧
  run_script upper random network traceback (<[name := ""]> environ) =
    run_script upper random network traceback (delete name environ) ∧
  ∃ missing,
    missing ∈ [PARAMETER_1; PARAMETER_2; PARAMETER_3] ∧
    run_script upper random network traceback (<[name := ""]> environ) =
      (Exited 2, missing_world missing).
Proof.
  intros Hin.
  split.
  { intros w. rewrite !get_required_env_unset; [done | apply is_set_delete |].
    apply is_set_insert_empty. }
  rewrite get_required_env_unset by apply is_set_insert_empty.
  do 2 (split; [reflexivity |]).
  apply run_unset_agree; try apply is_set_empty_or_deleted.
  assert (Hname : is_set (<[name := ""]> environ) name = false)
    by apply is_set_insert_empty.
  apply elem_of_cons in Hin as [->|Hin]; [by rewrite Hname |].
  apply elem_of_cons in Hin as [->|Hin]; [by rewrite Hname, andb_false_r |].
  apply elem_of_cons in Hin as [->|Hin]; [by rewrite Hname, andb_false_r |].
  by apply elem_of_nil in Hin.
Qed.

(** C10: a connection parameter that is present with the empty string as
    its value is handled as an absent one. For each of the three names,
    [get_required_env] does the same in the environment where the name is
    bound to "" and in the one where it is removed, namely it prints the
    diagnostic for that name and exits with code 2; and the whole run is the
    same in both environments: exit code 2, one missing-variable diagnostic
    on standard error, no HTTP call. *)
Theorem empty_parameter_is_missing (upper : string → string) (random : Z)
    (network : Request → result Response)
    (traceback : Exc.t → list string) (environ : gmap string string) :
  Forall
    (λ name,
       (∀ w, get_required_env (<[name := ""]> environ) name w =
             get_required_env (delete name environ) name w) ∧
       (get_required_env (<[name := ""]> environ) name initial_world).2 = missing_world name ∧
       terminate (get_required_env (<[name := ""]> environ) name initial_world).1 = Exited 2 ∧
       run_script upper random network traceback (<[name := ""]> environ) =
         run_script upper random network traceback (delete name environ) ∧
       ∃ missing,
         missing ∈ [PARAMETER_1; PARAMETER_2; PARAMETER_3] ∧
         run_script upper random network traceback (<[name := ""]> environ) =
           (Exited 2, missing_world missing))
    [PARAMETER_1; PARAMETER_2; PARAMETER_3].
Proof.
  repeat (constructor; [apply empty_like_absent; in_list |]).
  constructor.
Qed.

(** ** Outcome of a delivery attempt *)

(** The run of a configured process: the room identifier cannot be encoded
    and the run ends on the exception of [quote], or the request is made
    and the reply decides. *)
Lemma run_configured_cases (upper : string → string) (random : Z)
    (network : Request → result Response) (traceback : Exc.t → list string)
    (environ : gmap string string) :
  is_set environ PARAMETER_1 = true →
  is_set environ PARAMETER_2 = true →
  is_set environ PARAMETER_3 = true →
  run_script upper random network traceback environ =
    let message := build_message upper environ in
    let request :=
      matrix_request random (default "" (environ !! PARAMETER_1))
        (default "" (environ !! PARAMETER_2)) (default "" (environ !! PARAMETER_3))
        message.1 message.2 in
    let world out err := {| stdout := out; stderr := err; http_calls := [request] |} in
    if room_encodable environ then
      match network request with
      | Returned response =>
          if (400 <=? status_code response) && (status_code response <? 600) then
            (Exited 1, world [] ["ERROR: HTTP error: " +:+ Lib.http_error_msg response])
          else (Exited 0, world ["OK: Message sent successfully"] [])
      | Raised err =>
          if Exc.isinstance err Exc.Timeout then
            (Exited 1, world [] ["ERROR: Request timed out"])
          else if Exc.isinstance err Exc.ConnectionError then
            (Exited 1, world [] ["ERROR: Could not connect to server: " +:+ Exc.message err])
          else if Exc.isinstance err Exc.HTTPError then
            (Exited 1, world [] ["ERROR: HTTP error: " +:+ Exc.message err])
          else if Exc.isinstance err Exc.RequestException then
            (Exited 1, world [] ["ERROR: Request failed: " +:+ Exc.message err])
          else finish traceback (terminate (Raised (A:=unit) err)) (world [] [])
      end
    else
      (Unhandled Lib.surrogates_not_allowed,
       {| stdout := []; stderr := traceback Lib.surrogates_not_allowed; http_calls := [] |}).
Proof.
  intros H1 H2 H3.
  rewrite (run_configured _ _ _ _ _ H1 H2 H3).
  cbv zeta. rewrite send_to_matrix_run. cbv zeta. unfold room_encodable.
  destruct (Lib.valid_utf8 _); [| reflexivity].
  destruct (network _) as [response|err].
  - by destruct ((400 <=? status_code response) && (status_code response <? 600)).
  - destruct (Exc.isinstance err Exc.Timeout); [done |].
    destruct (Exc.isinstance err Exc.ConnectionError); [done |].
    destruct (Exc.isinstance err Exc.HTTPError); [done |].
    by destruct (Exc.isinstance err Exc.RequestException).
Qed.

(** C4, as the script has it: a delivery attempt is a run that reaches the
    request, with the three parameters set and a room identifier that can
    be encoded. It makes the one request and ends as follows. A response
    whose status is not in 400..599 is a delivery: exit code 0 and the
    success line on standard output. A response with a status in 400..599,
    a timeout, a connection error, an HTTP error and any other request
    exception are retryable: exit code 1 and one diagnostic on standard
    error. An exception that is no request exception meets no handler and
    ends the run as the interpreter ends it. *)
Theorem delivery_classification (upper : string → string) (random : Z)
    (network : Request → result Response) (traceback : Exc.t → list string)
    (environ : gmap string string) :
  is_set environ PARAMETER_1 = true →
  is_set environ PARAMETER_2 = true →
  is_set environ PARAMETER_3 = true →
  room_encodable environ = true →
  let message := build_message upper environ in
  let request :=
    matrix_request random (default "" (environ !! PARAMETER_1))
      (default "" (environ !! PARAMETER_2)) (default "" (environ !! PARAMETER_3))
      message.1 message.2 in
  let run := run_script upper random network traceback environ in
  http_calls run.2 = [request] ∧
  match network request with
  | Returned response =>
      if (400 <=? status_code response) && (status_code response <? 600) then
        retryable run ("ERROR: HTTP error: " +:+ Lib.http_error_msg response)
      else delivered run
  | Raised err =>
      if Exc.isinstance err Exc.Timeout then
        retryable run "ERROR: Request timed out"
      else if Exc.isinstance err Exc.ConnectionError then
        retryable run ("ERROR: Could not connect to server: " +:+ Exc.message err)
      else if Exc.isinstance err Exc.HTTPError then
        retryable run ("ERROR: HTTP error: " +:+ Exc.message err)
      else if Exc.isinstance err Exc.RequestException then
        retryable run ("ERROR: Request failed: " +:+ Exc.message err)
      else
        run =
          finish traceback (terminate (Raised (A:=unit) err))
            {| stdout := []; stderr := []; http_calls := [request] |}
  end.
Proof.
  intros H1 H2 H3 Hroom message request run. subst run.
  rewrite (run_configured_cases _ _ _ _ _ H1 H2 H3).
  cbv zeta. rewrite Hroom. fold message. fold request.
  unfold retryable, delivered.
  destruct (network request) as [response|err].
  - by destruct ((400 <=? status_code response) && (status_code response <? 600)).
  - destruct (Exc.isinstance err Exc.Timeout); [done |].
    destruct (Exc.isinstance err Exc.ConnectionError); [done |].
    destruct (Exc.isinstance err Exc.HTTPError); [done |].
    destruct (Exc.isinstance err Exc.RequestException); [done |].
    split; [| done]. by destruct (terminate _).
Qed.

Lemma delivery_classification_witness :
  (is_set example_environ PARAMETER_1 = true ∧
   is_set example_environ PARAMETER_2 = true ∧
   is_set example_environ PARAMETER_3 = true ∧
   room_encodable example_environ = true) ∧
  retryable
    (run_script Str.ascii_upper 0 (respond 500 "Internal Server Error") example_traceback
       example_environ)
    ("ERROR: HTTP error: 500 Server Error: Internal Server Error for url: " +:+
     "https://matrix.example.org/_matrix/client/v3/rooms/%21abc123%3Aexample.org" +:+
     "/send/m.room.message/00000000-0000-4000-8000-000000000000").
Proof.
  split; [by vm_compute |].
  destruct (delivery_classification Str.ascii_upper 0
              (respond 500 "Internal Server Error") example_traceback example_environ)
    as [_ Hclass];
    [by vm_compute | by vm_compute | by vm_compute | by vm_compute |].
  exact Hclass.
Defined.

(** C4 as worded fails on a status that is neither 2xx nor 4xx/5xx: a
    304 response is reported as a delivery, with exit code 0. *)
Lemma not_modified_counts_as_delivered :
  let run :=
    run_script Str.ascii_upper 0 (respond 304 "Not Modified") example_traceback
      example_environ in
  delivered run ∧ run.1 ≠ Exited 1 ∧ ¬ (∃ diagnostic, retryable run diagnostic).
Proof.
  intros run. split; [by vm_compute |]. split; [by vm_compute |].
  intros (diagnostic & Hexit & _). vm_compute in Hexit. discriminate.
Qed.

(** ** Failures that are not caught *)

(** C2 fails on the script: the room identifier is encoded at line 142,
    before the [try] of line 160. With the three parameters set and a room
    identifier that is not valid UTF-8, whatever the transport would do, no
    request is made and the run ends on an unhandled [UnicodeEncodeError]:
    it does not end through [sys.exit], the script prints no diagnostic and
    standard error holds the interpreter's traceback. *)
Theorem invalid_room_id_is_unhandled (upper : string → string) (random : Z)
    (network : Request → result Response) (traceback : Exc.t → list string) :
  let environ := <[PARAMETER_3 := invalid_room_id]> example_environ in
  let run := run_script upper random network traceback environ in
  configured environ = true ∧
  (∃ err, run.1 = Unhandled err ∧ Exc.cls err = Exc.UnicodeEncodeError) ∧
  (∀ code, run.1 ≠ Exited code) ∧
  http_calls run.2 = [] ∧
  stdout run.2 = [] ∧
  stderr run.2 = traceback Lib.surrogates_not_allowed.
Proof.
  intros environ run. subst run.
  rewrite (run_configured_cases upper random network traceback environ)
    by (by vm_compute).
  cbv zeta. replace (room_encodable environ) with false by (by vm_compute).
  split; [by vm_compute |].
  split; [by eexists |]. by split.
Qed.

(** The same slip inside the [try]: an exception raised by the request that
    is no request exception, such as the [UnicodeEncodeError] of a header
    value outside latin-1, meets no handler, whereas a header value that
    the library itself refuses raises [InvalidHeader], a request exception,
    and is reported with exit code 1. *)
Lemma other_exception_is_unhandled :
  let run :=
    run_script Str.ascii_upper 0
      (fail_with Exc.UnicodeEncodeError "'latin-1' codec can't encode character")
      example_traceback example_environ in
  let sibling :=
    run_script Str.ascii_upper 0
      (fail_with (Exc.OtherRequestException "InvalidHeader") "Invalid header value")
      example_traceback example_environ in
  (∃ err, run.1 = Unhandled err ∧ Exc.cls err = Exc.UnicodeEncodeError) ∧
  (∀ code, run.1 ≠ Exited code) ∧
  retryable sibling "ERROR: Request failed: Invalid header value".
Proof.
  intros run sibling. split; [eexists; by vm_compute |].
  split; [intros code Hexit; vm_compute in Hexit; discriminate | by vm_compute].
Qed.

(** ** Percent-encoding of the room identifier *)

Section Quote.
Import StrFacts.

Lemma always_safe_unreserved (c : ascii) : Lib.mem c Lib.ALWAYS_SAFE = unreserved c.
Proof. destruct c as [[] [] [] [] [] [] [] []]; vm_compute; reflexivity. Qed.

Lemma hex_value_high (c : ascii) :
  hex_value (Lib.hex_digit Lib.upper_hex (Z.of_N (N_of_ascii c) / 16)) =
    Some (Z.of_N (N_of_ascii c) / 16).
Proof. destruct c as [[] [] [] [] [] [] [] []]; vm_compute; reflexivity. Qed.

Lemma hex_value_low (c : ascii) :
  hex_value (Lib.hex_digit Lib.upper_hex (Z.of_N (N_of_ascii c) mod 16)) =
    Some (Z.of_N (N_of_ascii c) mod 16).
Proof. destruct c as [[] [] [] [] [] [] [] []]; vm_compute; reflexivity. Qed.

Lemma quote_byte_cases (c : ascii) :
  (unreserved c = true ∧ Lib.quote_byte "" c = String c "") ∨
  (unreserved c = false ∧
   ∃ hi lo h l,
     Lib.quote_byte "" c = String "%" (String hi (String lo "")) ∧
     hex_value hi = Some h ∧ hex_value lo = Some l ∧
     16 * h + l = Z.of_N (N_of_ascii c)).
Proof.
  unfold Lib.quote_byte. rewrite always_safe_unreserved. simpl Lib.mem.
  rewrite orb_false_r.
  destruct (unreserved c); [by left | right].
  split; [done |].
  exists (Lib.hex_digit Lib.upper_hex (Z.of_N (N_of_ascii c) / 16)),
         (Lib.hex_digit Lib.upper_hex (Z.of_N (N_of_ascii c) mod 16)),
         (Z.of_N (N_of_ascii c) / 16), (Z.of_N (N_of_ascii c) mod 16).
  split; [done |]. split; [apply hex_value_high |]. split; [apply hex_value_low |].
  symmetry. apply Z.div_mod. lia.
Qed.




Lemma quote_cons (c : ascii) (s safe : string) :
  Lib.quote_from_bytes (String c s) safe = Lib.quote_byte safe c +:+ Lib.quote_from_bytes s safe.
Proof. reflexivity. Qed.



End Quote.

(** [quote] returns the quoted bytes of a string that is valid UTF-8 and
    raises for any other. *)
Lemma quote_valid (s safe : string) (w : World) :
  Lib.valid_utf8 s = true →
  Lib.quote s safe w = (Returned (Lib.quote_from_bytes s safe), w).
Proof. unfold Lib.quote. by intros ->. Qed.

Lemma quote_invalid (s safe : string) (w : World) :
  Lib.valid_utf8 s = false →
  Lib.quote s safe w = (Raised Lib.surrogates_not_allowed, w).
Proof. unfold Lib.quote. by intros ->. Qed.

(** The request of a delivery attempt is recorded once, whatever comes back. *)
Lemma send_to_matrix_calls (random : Z) (network : Request → result Response)
    (homeserver access_token room_id plain_text html_text : string) (w : World) :
  Lib.valid_utf8 room_id = true →
  http_calls
    (send_to_matrix random network homeserver access_token room_id plain_text html_text w).2 =
  http_calls w ++
    [matrix_request random homeserver access_token room_id plain_text html_text].
Proof.
  intros Hvalid. rewrite send_to_matrix_run. cbv zeta. rewrite Hvalid.
  destruct (network _) as [response|err].
  - by destruct ((400 <=? status_code response) && (status_code response <? 600)).
  - destruct (Exc.isinstance err Exc.Timeout); [done |].
    destruct (Exc.isinstance err Exc.ConnectionError); [done |].
    destruct (Exc.isinstance err Exc.HTTPError); [done |].
    by destruct (Exc.isinstance err Exc.RequestException).
Qed.




Example quote_room_id :
  Lib.quote_from_bytes "!abc123:example.org" "" = "%21abc123%3Aexample.org" ∧
  Lib.quote_from_bytes "Az09-._~" "" = "Az09-._~" ∧
  Lib.quote_from_bytes "a/b c?é" "" = "a%2Fb%20c%3F%C3%A9" ∧
  (Lib.quote "a/b c?é" "" initial_world).1 = Returned "a%2Fb%20c%3F%C3%A9".
Proof. by vm_compute. Qed.

(** The validity test on well-formed and ill-formed byte sequences: ASCII,
    two, three and four byte forms; a stray continuation byte, a truncated
    form, an overlong form, an encoded surrogate and a value above
    U+10FFFF. *)
Example valid_utf8_samples :
  Lib.valid_utf8 "" = true ∧
  Lib.valid_utf8 "!abc123:example.org" = true ∧
  Lib.valid_utf8 "é → 🚨" = true ∧
  Lib.valid_utf8 (String "128"%char "") = false ∧
  Lib.valid_utf8 (String "195"%char "") = false ∧
  Lib.valid_utf8 (String "192"%char (String "175"%char "")) = false ∧
  Lib.valid_utf8 (String "237"%char (String "160"%char (String "128"%char ""))) = false ∧
  Lib.valid_utf8
    (String "244"%char (String "144"%char (String "128"%char (String "128"%char "")))) =
    false ∧
  Lib.valid_utf8 invalid_room_id = false.
Proof. by vm_compute. Qed.

(** ** The transaction identifier *)

Section Uuid.

Local Notation "c ::: s" := (String c s) (at level 60, right associativity).

(** The printed UUID, digit by digit. *)
Lemma uuid_str_digits (x : Z) :
  let d := Lib.hex_digit_at x in
  Lib.uuid_str x =
    d 31 ::: d 30 ::: d 29 ::: d 28 ::: d 27 ::: d 26 ::: d 25 ::: d 24 :::
    "-"%char ::: d 23 ::: d 22 ::: d 21 ::: d 20 :::
    "-"%char ::: d 19 ::: d 18 ::: d 17 ::: d 16 :::
    "-"%char ::: d 15 ::: d 14 ::: d 13 ::: d 12 :::
    "-"%char ::: d 11 ::: d 10 ::: d 9 ::: d 8 ::: d 7 ::: d 6 :::
    d 5 ::: d 4 ::: d 3 ::: d 2 ::: d 1 ::: d 0 ::: "".
Proof. reflexivity. Qed.

Lemma unhyphen_uuid_str (x : Z) : unhyphen (Lib.uuid_str x) = Lib.hex_width 32 x.
Proof. reflexivity. Qed.

(** Overwriting the variant and version bits keeps the free bits of the
    draw and sets the fixed ones. *)
Lemma uuid4_int_bits (r : Z) :
  Lib.uuid4_int r = Z.lor (Z.land r UUID4_FREE_BITS) UUID4_FIXED_BITS.
Proof.
  unfold Lib.uuid4_int.
  rewrite <- (Z.land_ones r 128) by lia.
  rewrite !Z.land_lor_distr_l, <- !Z.land_assoc, <- Z.lor_assoc.
  reflexivity.
Qed.

Lemma uuid4_int_range (r : Z) : 0 <= Lib.uuid4_int r < 2 ^ 128.
Proof.
  assert (Lib.uuid4_int r = Lib.uuid4_int r mod 2 ^ 128) as ->.
  { rewrite <- Z.land_ones by lia. rewrite uuid4_int_bits.
    rewrite Z.land_lor_distr_l, <- Z.land_assoc. reflexivity. }
  apply Z.mod_pos_bound. lia.
Qed.

Lemma free_bits_of_uuid4 (r : Z) :
  Z.land (Lib.uuid4_int r) UUID4_FREE_BITS = Z.land r UUID4_FREE_BITS.
Proof.
  rewrite uuid4_int_bits, Z.land_lor_distr_l, <- Z.land_assoc.
  change (Z.land UUID4_FREE_BITS UUID4_FREE_BITS) with UUID4_FREE_BITS.
  change (Z.land UUID4_FIXED_BITS UUID4_FREE_BITS) with 0.
  apply Z.lor_0_r.
Qed.

Lemma nibble_range (x : Z) : 0 <= Z.land x 15 < 16.
Proof.
  change 15 with (Z.ones 4). rewrite Z.land_ones by lia.
  apply Z.mod_pos_bound. lia.
Qed.

(** Case analysis on a value in 0..15. *)
Lemma nibble_cases (v : Z) (P : Z → Prop) :
  0 <= v < 16 →
  P 0 → P 1 → P 2 → P 3 → P 4 → P 5 → P 6 → P 7 →
  P 8 → P 9 → P 10 → P 11 → P 12 → P 13 → P 14 → P 15 → P v.
Proof.
  intros Hv.
  assert (v = 0 ∨ v = 1 ∨ v = 2 ∨ v = 3 ∨ v = 4 ∨ v = 5 ∨ v = 6 ∨ v = 7 ∨
          v = 8 ∨ v = 9 ∨ v = 10 ∨ v = 11 ∨ v = 12 ∨ v = 13 ∨ v = 14 ∨ v = 15)
    as H by lia.
  intros. repeat (destruct H as [->|H]; [assumption |]). by subst.
Qed.

Lemma digit_is_hex (x k : Z) : Lib.mem (Lib.hex_digit_at x k) Lib.lower_hex = true.
Proof.
  unfold Lib.hex_digit_at.
  apply (nibble_cases (Z.land (Z.shiftr x (4 * k)) 15)
           (λ v, Lib.mem (Lib.hex_digit Lib.lower_hex v) Lib.lower_hex = true));
    [apply nibble_range | reflexivity ..].
Qed.

Lemma hex_digit_inj (u v : Z) :
  0 <= u < 16 → 0 <= v < 16 →
  Lib.hex_digit Lib.lower_hex u = Lib.hex_digit Lib.lower_hex v → u = v.
Proof.
  intros Hu Hv. revert u Hu.
  apply (nibble_cases v
           (λ v, ∀ u, 0 <= u < 16 →
                 Lib.hex_digit Lib.lower_hex u = Lib.hex_digit Lib.lower_hex v → u = v));
    [done | ..];
    intros u Hu;
    apply (nibble_cases u
             (λ u, Lib.hex_digit Lib.lower_hex u = Lib.hex_digit Lib.lower_hex _ → u = _));
    try done; vm_compute; congruence.
Qed.

(** A digit of the UUID, from the draw and the two masks. *)
Lemma nibble_of_uuid4 (r k : Z) :
  0 <= k →
  Z.land (Z.shiftr (Lib.uuid4_int r) k) 15 =
    Z.lor (Z.land (Z.shiftr r k) (Z.land (Z.shiftr UUID4_FREE_BITS k) 15))
          (Z.land (Z.shiftr UUID4_FIXED_BITS k) 15).
Proof.
  intros Hk.
  rewrite uuid4_int_bits, Z.shiftr_lor, Z.shiftr_land, Z.land_lor_distr_l, Z.land_assoc.
  reflexivity.
Qed.

Lemma version_digit (r : Z) : Lib.hex_digit_at (Lib.uuid4_int r) 19 = "4"%char.
Proof.
  unfold Lib.hex_digit_at. rewrite nibble_of_uuid4 by lia.
  change (Z.land (Z.shiftr UUID4_FREE_BITS (4 * 19)) 15) with 0.
  change (Z.land (Z.shiftr UUID4_FIXED_BITS (4 * 19)) 15) with 4.
  rewrite Z.land_0_r. reflexivity.
Qed.

Lemma variant_digit (r : Z) : Lib.mem (Lib.hex_digit_at (Lib.uuid4_int r) 15) "89ab" = true.
Proof.
  unfold Lib.hex_digit_at. rewrite nibble_of_uuid4 by lia.
  change (Z.land (Z.shiftr UUID4_FREE_BITS (4 * 15)) 15) with 3.
  change (Z.land (Z.shiftr UUID4_FIXED_BITS (4 * 15)) 15) with 8.
  assert (0 <= Z.land (Z.shiftr r (4 * 15)) 3 < 4) as Hv.
  { change 3 with (Z.ones 2). rewrite Z.land_ones by lia. apply Z.mod_pos_bound. lia. }
  assert (Z.land (Z.shiftr r (4 * 15)) 3 = 0 ∨ Z.land (Z.shiftr r (4 * 15)) 3 = 1 ∨
          Z.land (Z.shiftr r (4 * 15)) 3 = 2 ∨ Z.land (Z.shiftr r (4 * 15)) 3 = 3)
    as H by lia.
  destruct H as [->|[->|[->| ->]]]; reflexivity.
Qed.

Lemma matches_cons (allowed : string) (pattern : list string) (c : ascii) (s : string) :
  matches (allowed :: pattern) (String c s) = Lib.mem c allowed && matches pattern s.
Proof. reflexivity. Qed.

Lemma uuid4_str_canonical (r : Z) : canonical_uuid4 (Lib.uuid4_str r) = true.
Proof.
  unfold canonical_uuid4, Lib.uuid4_str.
  pose proof (uuid_str_digits (Lib.uuid4_int r)) as Hdigits. cbv zeta in Hdigits.
  rewrite Hdigits, version_digit.
  pose proof (variant_digit r) as Hvariant.
  pose proof (digit_is_hex (Lib.uuid4_int r)) as Hdigit.
  let p := eval cbv in UUID4_PATTERN in change UUID4_PATTERN with p.
  unfold Lib.lower_hex in Hdigit.
  rewrite !matches_cons, !Hdigit, Hvariant. reflexivity.
Qed.

(** The digits determine the number. *)
Lemma hex_width_inj (w : nat) (x y : Z) :
  Lib.hex_width w x = Lib.hex_width w y → x mod 16 ^ Z.of_nat w = y mod 16 ^ Z.of_nat w.
Proof.
  induction w as [|w IH]; intros Heq.
  - by rewrite !Z.mod_1_r.
  - simpl in Heq. injection Heq as Hd Hrest.
    apply hex_digit_inj in Hd; [| apply nibble_range ..].
    specialize (IH Hrest).
    rewrite Nat2Z.inj_succ, Z.pow_succ_r by lia.
    rewrite (Z.mul_comm 16), !Z.rem_mul_r by lia.
    rewrite IH. f_equal. f_equal.
    change 15 with (Z.ones 4) in Hd. rewrite !Z.land_ones in Hd by lia.
    rewrite !Z.shiftr_div_pow2 in Hd by lia.
    change (2 ^ 4) with 16 in Hd.
    replace (2 ^ (4 * Z.of_nat w)) with (16 ^ Z.of_nat w) in Hd; [done |].
    change 16 with (2 ^ 4). by rewrite <- Z.pow_mul_r by lia.
Qed.

(** Two draws give the same identifier exactly when they agree on the free
    bits. *)
Lemma uuid4_str_eq_iff (r r' : Z) :
  Lib.uuid4_str r = Lib.uuid4_str r' ↔
  Z.land r UUID4_FREE_BITS = Z.land r' UUID4_FREE_BITS.
Proof.
  split.
  - intros Heq. apply (f_equal unhyphen) in Heq. unfold Lib.uuid4_str in Heq.
    rewrite !unhyphen_uuid_str in Heq. apply hex_width_inj in Heq.
    change (16 ^ Z.of_nat 32) with (2 ^ 128) in Heq.
    rewrite !Z.mod_small in Heq by apply uuid4_int_range.
    by rewrite <- (free_bits_of_uuid4 r), <- (free_bits_of_uuid4 r'), Heq.
  - intros Heq. unfold Lib.uuid4_str. by rewrite !uuid4_int_bits, Heq.
Qed.

End Uuid.

(** C8, as the script has it: every call of [send_to_matrix] with a room
    identifier that is valid UTF-8 makes exactly one request, a PUT to
    https://{homeserver}/_matrix/client/v3/rooms/{encoded room}/send/m.room.message/{txn}
    with the JSON body of the four fields msgtype, body, format and
    formatted_body, the headers Authorization (Bearer and the token) and
    Content-Type (application/json), and the timeout of 15 seconds. The
    transaction identifier is the invocation's random draw printed as a
    version-4 UUID in canonical hyphenated lower-case form. Two invocations
    get the same identifier, and so the same URL for the same server and
    room, exactly when their draws agree on all 122 bits that version 4
    leaves free. *)
Theorem delivery_request (random : Z) (network : Request → result Response)
    (homeserver access_token room_id plain_text html_text : string) (w : World) :
  Lib.valid_utf8 room_id = true →
  let txn_id := Lib.uuid4_str random in
  let attempt :=
    send_to_matrix random network homeserver access_token room_id plain_text html_text w in
  http_calls attempt.2 =
    http_calls w ++
    [{| req_method := "PUT";
        req_url := "https://" +:+ homeserver +:+ "/_matrix/client/v3/rooms/" +:+
                   Lib.quote_from_bytes room_id "" +:+ "/send/m.room.message/" +:+ txn_id;
        req_json := list_to_map [("msgtype", "m.text"); ("body", plain_text);
                                 ("format", "org.matrix.custom.html");
                                 ("formatted_body", html_text)];
        req_headers := list_to_map [("Authorization", "Bearer " +:+ access_token);
                                    ("Content-Type", "application/json")];
        req_timeout := 15 |}] ∧
  canonical_uuid4 txn_id = true ∧
  (∀ random' : Z,
     Lib.uuid4_str random' = txn_id ↔
     Z.land random' UUID4_FREE_BITS = Z.land random UUID4_FREE_BITS) ∧
  (∀ (random' : Z) (network' : Request → result Response) (w' : World),
     req_url <$> last (http_calls
       (send_to_matrix random' network' homeserver access_token room_id
          plain_text html_text w').2) =
     req_url <$> last (http_calls attempt.2) ↔
     Z.land random' UUID4_FREE_BITS = Z.land random UUID4_FREE_BITS).
Proof.
  intros Hvalid txn_id attempt. subst txn_id attempt.
  split; [by apply send_to_matrix_calls |].
  split; [apply uuid4_str_canonical |].
  split; [intros random'; apply uuid4_str_eq_iff |].
  intros random' network' w'.
  rewrite !send_to_matrix_calls, !last_snoc by done. simpl.
  rewrite <- uuid4_str_eq_iff. split.
  - intros [= Heq]. by do 5 (apply String.app_inj in Heq).
  - by intros ->.
Qed.

Lemma delivery_request_witness :
  Lib.valid_utf8 "!abc123:example.org" = true ∧
  http_calls
    (send_to_matrix 0 (respond 200 "OK") "matrix.example.org" "syt_secret"
       "!abc123:example.org" "plain" "html" initial_world).2 =
    [{| req_method := "PUT";
        req_url :=
          "https://matrix.example.org/_matrix/client/v3/rooms/%21abc123%3Aexample.org" +:+
          "/send/m.room.message/00000000-0000-4000-8000-000000000000";
        req_json := list_to_map [("msgtype", "m.text"); ("body", "plain");
                                 ("format", "org.matrix.custom.html");
                                 ("formatted_body", "html")];
        req_headers := list_to_map [("Authorization", "Bearer syt_secret");
                                    ("Content-Type", "application/json")];
        req_timeout := 15 |}].
Proof.
  split; [reflexivity |].
  destruct (delivery_request 0 (respond 200 "OK") "matrix.example.org" "syt_secret"
              "!abc123:example.org" "plain" "html" initial_world) as [Hcalls _];
    [reflexivity |].
  exact Hcalls.
Defined.

(** C8 as worded fails twice. Distinct identifiers are not guaranteed: two
    invocations whose draws differ only in a bit that version 4 overwrites
    (here 0 and 2^62), and two invocations with the same draw, send the same
    transaction identifier. And a call with a room identifier that is not
    valid UTF-8 issues no request at all. *)
Lemma same_transaction_id_and_no_request :
  (0 ≠ 2 ^ 62 ∧ Lib.uuid4_str 0 = Lib.uuid4_str (2 ^ 62)) ∧
  (map req_url (http_calls
     (send_to_matrix 0 (respond 200 "OK") "matrix.example.org" "syt_secret"
        "!abc123:example.org" "plain" "html" initial_world).2) =
   map req_url (http_calls
     (send_to_matrix (2 ^ 62) (respond 200 "OK") "matrix.example.org" "syt_secret"
        "!abc123:example.org" "plain" "html" initial_world).2)) ∧
  http_calls
    (send_to_matrix 0 (respond 200 "OK") "matrix.example.org" "syt_secret"
       invalid_room_id "plain" "html" initial_world).2 = [].
Proof. by vm_compute. Qed.

Example uuid4_examples :
  Lib.uuid4_str 0 = "00000000-0000-4000-8000-000000000000" ∧
  Lib.uuid4_str 0x0123456789abcdef0123456789abcdef = "01234567-89ab-4def-8123-456789abcdef" ∧
  Lib.uuid4_str (2 ^ 128 - 1) = "ffffffff-ffff-4fff-bfff-ffffffffffff" ∧
  canonical_uuid4 "01234567-89ab-1def-8123-456789abcdef" = false ∧
  canonical_uuid4 "01234567-89AB-4def-8123-456789abcdef" = false.
Proof. by vm_compute. Qed.

(** ** Sample runs *)

Example build_message_service :
  build_message Str.ascii_upper example_environ =
    ("🚨 SERVICE PROBLEM: web01" +:+ Str.newline +:+
     "Service: HTTP" +:+ Str.newline +:+
     "State: OK → CRIT" +:+ Str.newline +:+
     "Output: connection refused",
     "<p><b>🚨 SERVICE PROBLEM</b></p><br><b>Host:</b> web01<br>" +:+
     "<b>Service:</b> HTTP<br><b>State:</b> OK &rarr; <b>CRIT</b><br>" +:+
     "<b>Output:</b> <code>connection refused</code><br>" +:+
     "<p><small>Site:  | </small></p>").
Proof. by vm_compute. Qed.

Example build_message_host :
  build_message Str.ascii_upper
    (list_to_map [("NOTIFY_WHAT", "host"); ("NOTIFY_NOTIFICATIONTYPE", "RECOVERY");
                  ("NOTIFY_HOSTNAME", "db02"); ("NOTIFY_HOSTSHORTSTATE", "UP");
                  ("NOTIFY_PREVIOUSHOSTHARDSHORTSTATE", "DOWN");
                  ("NOTIFY_HOSTOUTPUT", "PING OK"); ("NOTIFY_SERVICEDESC", "ignored");
                  ("OMD_SITE", "prod"); ("NOTIFY_SHORTDATETIME", "2024-05-01 12:00:00")]) =
    ("✅ HOST RECOVERY: db02" +:+ Str.newline +:+
     "State: DOWN → UP" +:+ Str.newline +:+
     "Output: PING OK",
     "<p><b>✅ HOST RECOVERY</b></p><br><b>Host:</b> db02<br>" +:+
     "<b>State:</b> DOWN &rarr; <b>UP</b><br><b>Output:</b> <code>PING OK</code><br>" +:+
     "<p><small>Site: prod | 2024-05-01 12:00:00</small></p>").
Proof. by vm_compute. Qed.

Example build_message_empty_environment :
  build_message Str.ascii_upper ∅ =
    ("ℹ️  HOST : " +:+ Str.newline +:+ "State:  → " +:+ Str.newline +:+ "Output: ",
     "<p><b>ℹ️  HOST </b></p><br><b>Host:</b> <br><b>State:</b>  &rarr; <b></b><br>" +:+
     "<b>Output:</b> <code></code><br><p><small>Site:  | </small></p>").
Proof. by vm_compute. Qed.

Example run_delivered :
  run_script Str.ascii_upper 0 (respond 200 "OK") example_traceback example_environ =
    (Exited 0,
     {| stdout := ["OK: Message sent successfully"];
        stderr := [];
        http_calls :=
          [matrix_request 0 "matrix.example.org" "syt_secret" "!abc123:example.org"
             (build_message Str.ascii_upper example_environ).1
             (build_message Str.ascii_upper example_environ).2] |}).
Proof. by vm_compute. Qed.

Example run_timeout_and_server_error :
  (run_script Str.ascii_upper 0 (fail_with Exc.ReadTimeout "read timeout=15") example_traceback
     example_environ).1 = Exited 1 ∧
  (run_script Str.ascii_upper 0 (respond 500 "Internal Server Error") example_traceback example_environ).1 =
    Exited 1 ∧
  (run_script Str.ascii_upper 0 (respond 401 "Unauthorized") example_traceback example_environ).1 = Exited 1.
Proof. by vm_compute. Qed.

Example run_with_invalid_room_id :
  run_script Str.ascii_upper 0 (respond 200 "OK") example_traceback
    (<[PARAMETER_3 := invalid_room_id]> example_environ) =
    (Unhandled Lib.surrogates_not_allowed,
     {| stdout := [];
        stderr := ["Traceback (most recent call last):"; "  ..."; "surrogates not allowed"];
        http_calls := [] |}).
Proof. by vm_compute. Qed.

Example run_without_token :
  run_script Str.ascii_upper 0 (respond 200 "OK") example_traceback (delete PARAMETER_2 example_environ) =
    (Exited 2, missing_world PARAMETER_2) ∧
  run_script Str.ascii_upper 0 (respond 200 "OK") example_traceback (<[PARAMETER_2 := ""]> example_environ) =
    (Exited 2, missing_world PARAMETER_2).
Proof. by vm_compute. Qed.

(** * Further properties *)

(** ** Reading the environment *)

Lemma get_env_insert_ne (environ : gmap string string) (name key value dflt : string) :
  name ≠ key → get_env (<[name := value]> environ) key dflt = get_env environ key dflt.
Proof. intros Hne. unfold get_env. by rewrite lookup_insert_ne. Qed.

Lemma get_env_insert_eq (environ : gmap string string) (name value dflt : string) :
  get_env (<[name := value]> environ) name dflt = value.
Proof. unfold get_env. by rewrite lookup_insert_eq. Qed.

Lemma get_env_delete_ne (environ : gmap string string) (name key dflt : string) :
  name ≠ key → get_env (delete name environ) key dflt = get_env environ key dflt.
Proof. intros Hne. unfold get_env. by rewrite lookup_delete_ne. Qed.

Lemma get_env_delete_eq (environ : gmap string string) (name dflt : string) :
  get_env (delete name environ) name dflt = dflt.
Proof. unfold get_env. by rewrite lookup_delete_eq. Qed.

(** For a field whose default is the empty string, an absent variable and
    an empty one read the same. *)
Lemma get_env_absent_or_empty (environ : gmap string string) (name key : string) :
  get_env (delete name environ) key "" = get_env (<[name := ""]> environ) key "".
Proof.
  destruct (decide (name = key)) as [->|Hne].
  - by rewrite get_env_delete_eq, get_env_insert_eq.
  - by rewrite get_env_delete_ne, get_env_insert_ne.
Qed.

(** Splits the fact that a name is none of the variables of a list. *)
Ltac split_not_in H :=
  repeat (apply not_elem_of_cons in H; destruct H as [? H]).

(** X1: a notification without NOTIFY_WHAT is built as one whose
    NOTIFY_WHAT is "HOST": the kind defaults to HOST. *)
Theorem kind_defaults_to_host (upper : string → string) (environ : gmap string string) :
  build_message upper (delete "NOTIFY_WHAT" environ) =
  build_message upper (<["NOTIFY_WHAT" := "HOST"]> environ).
Proof.
  unfold build_message. f_equal. unfold read_context.
  rewrite get_env_delete_eq, get_env_insert_eq.
  by rewrite !get_env_delete_ne, !get_env_insert_ne by done.
Qed.

(** X2: every field but the kind renders as the empty string when its
    variable is absent: removing a variable other than NOTIFY_WHAT and
    binding it to the empty string give the same message. *)
Theorem absent_field_is_empty (upper : string → string) (environ : gmap string string)
    (name : string) :
  name ≠ "NOTIFY_WHAT" →
  build_message upper (delete name environ) = build_message upper (<[name := ""]> environ).
Proof.
  intros Hne. unfold build_message. f_equal. unfold read_context.
  rewrite !get_env_absent_or_empty.
  by rewrite (get_env_delete_ne _ name "NOTIFY_WHAT"),
    (get_env_insert_ne _ name "NOTIFY_WHAT") by done.
Qed.

Lemma absent_field_is_empty_witness :
  "NOTIFY_HOSTNAME" ≠ "NOTIFY_WHAT" ∧
  build_message Str.ascii_upper (delete "NOTIFY_HOSTNAME" example_environ) =
  build_message Str.ascii_upper (<["NOTIFY_HOSTNAME" := ""]> example_environ).
Proof.
  split; [discriminate |].
  apply (absent_field_is_empty Str.ascii_upper example_environ "NOTIFY_HOSTNAME").
  discriminate.
Defined.

(** X3: NOTIFY_WHAT is compared after upper-casing: two values with the
    same upper-case form give the same message. *)
Theorem kind_is_case_insensitive (upper : string → string) (environ : gmap string string)
    (kind kind' : string) :
  upper kind = upper kind' →
  build_message upper (<["NOTIFY_WHAT" := kind]> environ) =
  build_message upper (<["NOTIFY_WHAT" := kind']> environ).
Proof.
  intros Hupper. unfold build_message. f_equal. unfold read_context.
  rewrite !get_env_insert_eq, Hupper.
  by rewrite !get_env_insert_ne by done.
Qed.

Lemma kind_is_case_insensitive_witness :
  Str.ascii_upper "service" = Str.ascii_upper "Service" ∧
  build_message Str.ascii_upper (<["NOTIFY_WHAT" := "service"]> example_environ) =
  build_message Str.ascii_upper (<["NOTIFY_WHAT" := "Service"]> example_environ).
Proof.
  split; [reflexivity |].
  apply (kind_is_case_insensitive Str.ascii_upper example_environ "service" "Service").
  reflexivity.
Defined.

(** X4: the message depends on no variable that [build_message] does not
    read: binding or removing any other variable, the connection parameters
    with the access token among them, leaves both bodies unchanged. *)
Theorem message_ignores_other_variables (upper : string → string)
    (environ : gmap string string) (name value : string) :
  name ∉ MESSAGE_VARIABLES →
  build_message upper (<[name := value]> environ) = build_message upper environ ∧
  build_message upper (delete name environ) = build_message upper environ.
Proof.
  intros Hname. unfold MESSAGE_VARIABLES in Hname. simpl in Hname.
  split_not_in Hname.
  unfold build_message, read_context.
  by rewrite !get_env_insert_ne, !get_env_delete_ne by done.
Qed.

Lemma message_ignores_other_variables_witness :
  (PARAMETER_2 ∉ MESSAGE_VARIABLES) ∧
  build_message Str.ascii_upper (<[PARAMETER_2 := "other"]> example_environ) =
    build_message Str.ascii_upper example_environ ∧
  build_message Str.ascii_upper (delete PARAMETER_2 example_environ) =
    build_message Str.ascii_upper example_environ.
Proof.
  assert (Hname : PARAMETER_2 ∉ MESSAGE_VARIABLES).
  { apply (bool_decide_unpack (PARAMETER_2 ∉ MESSAGE_VARIABLES)). vm_compute. exact I. }
  split; [exact Hname |].
  exact (message_ignores_other_variables Str.ascii_upper example_environ
           PARAMETER_2 "other" Hname).
Defined.

(** X5: a notification that is not of kind SERVICE takes nothing from the
    service variables: whatever one of them is bound to, the message is the
    same. *)
Theorem host_message_ignores_service_variables (upper : string → string)
    (environ : gmap string string) (name value : string) :
  upper (get_env environ "NOTIFY_WHAT" "HOST") ≠ "SERVICE" →
  name ∈ SERVICE_VARIABLES →
  build_message upper (<[name := value]> environ) = build_message upper environ.
Proof.
  intros Hkind Hname. unfold build_message. f_equal. unfold read_context.
  unfold SERVICE_VARIABLES in Hname.
  repeat (apply elem_of_cons in Hname as [->|Hname];
          [rewrite (get_env_insert_ne _ _ "NOTIFY_WHAT") by done;
           rewrite (bool_decide_eq_false_2 _ Hkind);
           by rewrite !get_env_insert_ne by done |]).
  by apply elem_of_nil in Hname.
Qed.

Lemma host_message_ignores_service_variables_witness :
  (Str.ascii_upper (get_env (∅ : gmap string string) "NOTIFY_WHAT" "HOST") ≠ "SERVICE" ∧
   "NOTIFY_SERVICEOUTPUT" ∈ SERVICE_VARIABLES) ∧
  build_message Str.ascii_upper (<["NOTIFY_SERVICEOUTPUT" := "disk full"]> ∅) =
  build_message Str.ascii_upper ∅.
Proof.
  assert (Hkind : Str.ascii_upper (get_env (∅ : gmap string string) "NOTIFY_WHAT" "HOST")
                  ≠ "SERVICE") by (vm_compute; discriminate).
  assert (Hname : "NOTIFY_SERVICEOUTPUT" ∈ SERVICE_VARIABLES).
  { apply (bool_decide_unpack ("NOTIFY_SERVICEOUTPUT" ∈ SERVICE_VARIABLES)).
    vm_compute. exact I. }
  split; [by split |].
  exact (host_message_ignores_service_variables Str.ascii_upper ∅
           "NOTIFY_SERVICEOUTPUT" "disk full" Hkind Hname).
Defined.

(** X6: a notification of kind SERVICE takes nothing from the host state
    variables: whatever one of them is bound to, the message is the same. *)
Theorem service_message_ignores_host_variables (upper : string → string)
    (environ : gmap string string) (name value : string) :
  upper (get_env environ "NOTIFY_WHAT" "HOST") = "SERVICE" →
  name ∈ HOST_VARIABLES →
  build_message upper (<[name := value]> environ) = build_message upper environ.
Proof.
  intros Hkind Hname. unfold build_message. f_equal. unfold read_context.
  unfold HOST_VARIABLES in Hname.
  repeat (apply elem_of_cons in Hname as [->|Hname];
          [rewrite (get_env_insert_ne _ _ "NOTIFY_WHAT") by done;
           rewrite (bool_decide_eq_true_2 _ Hkind);
           by rewrite !get_env_insert_ne by done |]).
  by apply elem_of_nil in Hname.
Qed.

Lemma service_message_ignores_host_variables_witness :
  (Str.ascii_upper (get_env example_environ "NOTIFY_WHAT" "HOST") = "SERVICE" ∧
   "NOTIFY_HOSTSHORTSTATE" ∈ HOST_VARIABLES) ∧
  build_message Str.ascii_upper (<["NOTIFY_HOSTSHORTSTATE" := "DOWN"]> example_environ) =
  build_message Str.ascii_upper example_environ.
Proof.
  assert (Hkind : Str.ascii_upper (get_env example_environ "NOTIFY_WHAT" "HOST") = "SERVICE")
    by (vm_compute; reflexivity).
  assert (Hname : "NOTIFY_HOSTSHORTSTATE" ∈ HOST_VARIABLES).
  { apply (bool_decide_unpack ("NOTIFY_HOSTSHORTSTATE" ∈ HOST_VARIABLES)).
    vm_compute. exact I. }
  split; [by split |].
  exact (service_message_ignores_host_variables Str.ascii_upper example_environ
           "NOTIFY_HOSTSHORTSTATE" "DOWN" Hkind Hname).
Defined.

(** ** Lines of the plain text *)

Lemma count_char_app (c : ascii) (a b : string) :
  count_char c (a +:+ b) = (count_char c a + count_char c b)%nat.
Proof.
  induction a as [|x a IH]; [done |].
  rewrite StrFacts.app_cons. simpl. rewrite IH. lia.
Qed.

Lemma get_emoji_one_line (state : string) : count_char "010"%char (get_emoji state) = 0%nat.
Proof.
  unfold get_emoji, STATE_EMOJIS.
  rewrite !lookup_insert, lookup_empty.
  repeat case_decide; reflexivity.
Qed.

(** X7: when no field written into the plain text holds a line feed, the
    plain text has exactly four lines for a SERVICE notification and three
    lines otherwise, that is three and two line feeds. *)
Theorem plain_text_line_count (ctx : NotificationContext) :
  Forall (λ field, count_char "010"%char field = 0%nat) (text_fields ctx) →
  count_char "010"%char (plain_text ctx) = if is_service ctx then 3%nat else 2%nat.
Proof.
  intros Hfields.
  change (plain_text ctx) with (render_message ctx).1. rewrite render_plain.
  unfold text_fields, is_service in *. unfold plain_text_spec.
  destruct (decide (what ctx = "SERVICE")) as [Hs|Hs].
  - rewrite (bool_decide_eq_true_2 _ Hs) in *. simpl in Hfields.
    repeat (apply Forall_cons in Hfields as [? Hfields]).
    rewrite !count_char_app, get_emoji_one_line.
    repeat match goal with H : count_char _ _ = 0%nat |- _ => rewrite H; clear H end.
    reflexivity.
  - rewrite (bool_decide_eq_false_2 _ Hs) in *. simpl in Hfields.
    repeat (apply Forall_cons in Hfields as [? Hfields]).
    rewrite !count_char_app, get_emoji_one_line.
    repeat match goal with H : count_char _ _ = 0%nat |- _ => rewrite H; clear H end.
    reflexivity.
Qed.

Lemma plain_text_line_count_witness :
  Forall (λ field, count_char "010"%char field = 0%nat)
    (text_fields (read_context Str.ascii_upper example_environ)) ∧
  count_char "010"%char (plain_text (read_context Str.ascii_upper example_environ)) =
    if is_service (read_context Str.ascii_upper example_environ) then 3%nat else 2%nat.
Proof.
  assert (Hfields : Forall (λ field, count_char "010"%char field = 0%nat)
                      (text_fields (read_context Str.ascii_upper example_environ))).
  { vm_compute. repeat constructor. }
  split; [exact Hfields |].
  exact (plain_text_line_count (read_context Str.ascii_upper example_environ) Hfields).
Defined.

Example line_feed_in_output_adds_a_line :
  count_char "010"%char
    (plain_text (read_context Str.ascii_upper
       (<["NOTIFY_SERVICEOUTPUT" := "first" +:+ Str.newline +:+ "second"]> example_environ)))
  = 4%nat.
Proof. by vm_compute. Qed.

(** ** Invariants of a run *)

Lemma run_unconfigured (upper : string → string) (random : Z)
    (network : Request → result Response) (traceback : Exc.t → list string)
    (environ : gmap string string) :
  configured environ = false →
  ∃ name, run_script upper random network traceback environ =
          (Exited 2, missing_world name).
Proof.
  unfold configured. intros Hconf.
  destruct (is_set environ PARAMETER_1) eqn:H1;
    [| exists PARAMETER_1; by apply run_missing_1].
  destruct (is_set environ PARAMETER_2) eqn:H2;
    [| exists PARAMETER_2; by apply run_missing_2].
  destruct (is_set environ PARAMETER_3) eqn:H3; [discriminate |].
  exists PARAMETER_3. by apply run_missing_3.
Qed.

Lemma run_when_configured (upper : string → string) (random : Z)
    (network : Request → result Response) (traceback : Exc.t → list string)
    (environ : gmap string string) :
  configured environ = true →
  run_script upper random network traceback environ =
    let request := run_request upper random environ in
    let world out err := {| stdout := out; stderr := err; http_calls := [request] |} in
    if room_encodable environ then
      match network request with
      | Returned response =>
          if error_status (status_code response) then
            (Exited 1, world [] ["ERROR: HTTP error: " +:+ Lib.http_error_msg response])
          else (Exited 0, world ["OK: Message sent successfully"] [])
      | Raised err =>
          if Exc.isinstance err Exc.Timeout then
            (Exited 1, world [] ["ERROR: Request timed out"])
          else if Exc.isinstance err Exc.ConnectionError then
            (Exited 1, world [] ["ERROR: Could not connect to server: " +:+ Exc.message err])
          else if Exc.isinstance err Exc.HTTPError then
            (Exited 1, world [] ["ERROR: HTTP error: " +:+ Exc.message err])
          else if Exc.isinstance err Exc.RequestException then
            (Exited 1, world [] ["ERROR: Request failed: " +:+ Exc.message err])
          else finish traceback (terminate (Raised (A:=unit) err)) (world [] [])
      end
    else
      (Unhandled Lib.surrogates_not_allowed,
       {| stdout := []; stderr := traceback Lib.surrogates_not_allowed; http_calls := [] |}).
Proof.
  unfold configured. intros Hconf.
  apply andb_true_iff in Hconf as [Hconf H3].
  apply andb_true_iff in Hconf as [H1 H2].
  apply (run_configured_cases _ _ _ _ _ H1 H2 H3).
Qed.

(** X8: whatever the environment and whatever the request does, a run makes
    one HTTP call when the three parameters are set and the room identifier
    is valid UTF-8, and none otherwise; it writes to standard output only
    when it ends as a delivery; when it ends through [sys.exit] it has
    written at most one line in all, to standard error only with exit code 1
    or 2; and when it ends on an unhandled exception the script has printed
    nothing and standard error holds the interpreter's traceback. *)
Theorem run_writes_at_most_one_line (upper : string → string) (random : Z)
    (network : Request → result Response) (traceback : Exc.t → list string)
    (environ : gmap string string) :
  let run := run_script upper random network traceback environ in
  http_calls run.2 =
    (if configured environ && room_encodable environ
     then [run_request upper random environ] else []) ∧
  (stdout run.2 = [] ∨ delivered run) ∧
  match run.1 with
  | Exited code =>
      (length (stdout run.2) + length (stderr run.2) ≤ 1)%nat ∧
      (stderr run.2 = [] ∨ code = 1 ∨ code = 2)
  | Unhandled err => stdout run.2 = [] ∧ stderr run.2 = traceback err
  end.
Proof.
  intros run. subst run. unfold delivered.
  destruct (configured environ) eqn:Hconf.
  - rewrite (run_when_configured _ _ _ _ _ Hconf). cbv zeta.
    destruct (room_encodable environ); [| simpl; auto].
    destruct (network _) as [response|err].
    + destruct (error_status (status_code response)); simpl; auto 10.
    + destruct (Exc.isinstance err Exc.Timeout); [simpl; auto 10 |].
      destruct (Exc.isinstance err Exc.ConnectionError); [simpl; auto 10 |].
      destruct (Exc.isinstance err Exc.HTTPError); [simpl; auto 10 |].
      destruct (Exc.isinstance err Exc.RequestException); [simpl; auto 10 |].
      destruct (terminate _); simpl; auto 10.
  - destruct (run_unconfigured upper random network traceback environ Hconf) as [name ->].
    simpl. auto 10.
Qed.

(** The three specific handlers of [send_to_matrix] catch subclasses of
    [RequestException] only. *)
Lemma handled_is_request_exception (err : Exc.t) :
  Exc.isinstance err Exc.Timeout || Exc.isinstance err Exc.ConnectionError ||
  Exc.isinstance err Exc.HTTPError = true →
  Exc.isinstance err Exc.RequestException = true.
Proof.
  unfold Exc.isinstance. destruct (Exc.cls err); vm_compute; congruence.
Qed.

(** X9: the end of the run tells what happened, as long as the request
    returns a response or raises a request exception: the exit code is 2
    exactly when a connection parameter is not set; it is 0 exactly when the
    parameters are set, the room identifier is valid UTF-8 and the response
    has no error status; it is 1 exactly when the parameters are set, the
    room identifier is valid UTF-8 and the response has an error status or
    the request raised; and the run ends on an unhandled exception exactly
    when the parameters are set and the room identifier is not valid
    UTF-8. *)
Theorem exit_code_meaning (upper : string → string) (random : Z)
    (network : Request → result Response) (traceback : Exc.t → list string)
    (environ : gmap string string) :
  (∀ request err,
     network request = Raised err → Exc.isinstance err Exc.RequestException = true) →
  let run := run_script upper random network traceback environ in
  let reply := network (run_request upper random environ) in
  (run.1 = Exited 2 ↔ configured environ = false) ∧
  (run.1 = Exited 0 ↔
     configured environ = true ∧ room_encodable environ = true ∧
     ∃ response, reply = Returned response ∧ error_status (status_code response) = false) ∧
  (run.1 = Exited 1 ↔
     configured environ = true ∧ room_encodable environ = true ∧
     ((∃ response, reply = Returned response ∧ error_status (status_code response) = true) ∨
      ∃ err, reply = Raised err)) ∧
  ((∃ err, run.1 = Unhandled err) ↔
     configured environ = true ∧ room_encodable environ = false).
Proof.
  intros Hnet run reply. subst run reply.
  destruct (configured environ) eqn:Hconf.
  - rewrite (run_when_configured _ _ _ _ _ Hconf). cbv zeta.
    destruct (room_encodable environ) eqn:Hroom.
    + destruct (network _) as [response|err] eqn:Hreply.
      * destruct (error_status (status_code response)) eqn:Hstatus; simpl.
        -- split; [split; discriminate |]. split.
           ++ split; [discriminate |]. intros (_ & _ & r & Hr & Hok). congruence.
           ++ split; [split; [| done]; intros _; do 2 (split; [done |]);
                      left; by exists response |].
              split; [intros [e He]; discriminate | intros [_ ?]; discriminate].
        -- split; [split; discriminate |]. split.
           ++ split; [| done]. intros _. do 2 (split; [done |]). by exists response.
           ++ split; [split; [discriminate |];
                      intros (_ & _ & [(r & Hr & Hbad)|(e & He)]); congruence |].
              split; [intros [e He]; discriminate | intros [_ ?]; discriminate].
      * destruct (Exc.isinstance err Exc.Timeout);
          [| destruct (Exc.isinstance err Exc.ConnectionError);
             [| destruct (Exc.isinstance err Exc.HTTPError);
                [| rewrite (Hnet _ _ Hreply)]]];
          simpl;
          (split; [split; discriminate |]; split;
           [split; [discriminate | intros (_ & _ & r & Hr & _); discriminate] |];
           split;
           [split; [| done]; intros _; do 2 (split; [done |]); right; by exists err |];
           split; [intros [e He]; discriminate | intros [_ ?]; discriminate]).
    + simpl. split; [split; discriminate |].
      split; [split; [discriminate | intros (_ & ? & _); discriminate] |].
      split; [split; [discriminate | intros (_ & ? & _); discriminate] |].
      split; [done | intros _; by eexists].
  - destruct (run_unconfigured upper random network traceback environ Hconf) as [name ->].
    simpl. split; [done |].
    split; [split; [discriminate | intros [? _]; discriminate] |].
    split; [split; [discriminate | intros [? _]; discriminate] |].
    split; [intros [e He]; discriminate | intros [? _]; discriminate].
Qed.

Lemma exit_code_meaning_witness :
  (∀ request err,
     fail_with Exc.ReadTimeout "read timeout=15" request = Raised err →
     Exc.isinstance err Exc.RequestException = true) ∧
  (let run :=
     run_script Str.ascii_upper 0 (fail_with Exc.ReadTimeout "read timeout=15")
       example_traceback example_environ in
   let reply :=
     fail_with Exc.ReadTimeout "read timeout=15"
       (run_request Str.ascii_upper 0 example_environ) in
   (run.1 = Exited 2 ↔ configured example_environ = false) ∧
   (run.1 = Exited 0 ↔
      configured example_environ = true ∧ room_encodable example_environ = true ∧
      ∃ response, reply = Returned response ∧ error_status (status_code response) = false) ∧
   (run.1 = Exited 1 ↔
      configured example_environ = true ∧ room_encodable example_environ = true ∧
      ((∃ response, reply = Returned response ∧ error_status (status_code response) = true) ∨
       ∃ err, reply = Raised err)) ∧
   ((∃ err, run.1 = Unhandled err) ↔
      configured example_environ = true ∧ room_encodable example_environ = false)).
Proof.
  assert (Hnet : ∀ request err,
            fail_with Exc.ReadTimeout "read timeout=15" request = Raised err →
            Exc.isinstance err Exc.RequestException = true).
  { intros request err Hraised. injection Hraised as <-. reflexivity. }
  split; [exact Hnet |].
  exact (exit_code_meaning Str.ascii_upper 0 (fail_with Exc.ReadTimeout "read timeout=15")
           example_traceback example_environ Hnet).
Defined.

(** ** The return value of the delivery client *)

(** X10: [send_to_matrix] returns True exactly when the room identifier is
    valid UTF-8 and the request returned a response without error status;
    it returns False exactly when the room identifier is valid UTF-8 and
    the response has an error status or the request raised a request
    exception; and it raises exactly the [UnicodeEncodeError] of [quote]
    for a room identifier that is not valid UTF-8, and otherwise what the
    request raised outside the requests hierarchy. What was written before
    the call is kept. *)
Theorem send_to_matrix_result (random : Z) (network : Request → result Response)
    (homeserver access_token room_id plain_text html_text : string) (w : World) :
  let attempt :=
    send_to_matrix random network homeserver access_token room_id plain_text html_text w in
  let reply :=
    network (matrix_request random homeserver access_token room_id plain_text html_text) in
  (attempt.1 = Returned true ↔
     Lib.valid_utf8 room_id = true ∧
     ∃ response, reply = Returned response ∧ error_status (status_code response) = false) ∧
  (attempt.1 = Returned false ↔
     Lib.valid_utf8 room_id = true ∧
     ((∃ response, reply = Returned response ∧ error_status (status_code response) = true) ∨
      (∃ err, reply = Raised err ∧ Exc.isinstance err Exc.RequestException = true))) ∧
  (∀ err, attempt.1 = Raised err ↔
     (Lib.valid_utf8 room_id = false ∧ err = Lib.surrogates_not_allowed) ∨
     (Lib.valid_utf8 room_id = true ∧ reply = Raised err ∧
      Exc.isinstance err Exc.RequestException = false)) ∧
  stdout w `prefix_of` stdout attempt.2 ∧ stderr w `prefix_of` stderr attempt.2.
Proof.
  intros attempt reply. subst attempt reply.
  rewrite send_to_matrix_run. cbv zeta.
  destruct (Lib.valid_utf8 room_id) eqn:Hvalid.
  2: {
    simpl. split; [split; [discriminate | intros [? _]; discriminate] |].
    split; [split; [discriminate | intros [? _]; discriminate] |].
    split; [| done].
    intros e. split.
    - intros [= <-]. by left.
    - intros [[_ ->]|[? _]]; [done | discriminate]. }
  destruct (network _) as [response|err] eqn:Hreply.
  - change ((400 <=? status_code response) && (status_code response <? 600))
      with (error_status (status_code response)).
    destruct (error_status (status_code response)) eqn:Hstatus; simpl.
    + split; [split; [discriminate | intros (_ & r & Hr & Hok); congruence] |].
      split; [split; [intros _; split; [done |]; left; by exists response | done] |].
      split; [intros e; split;
              [discriminate | intros [[? _]|(_ & He & _)]; discriminate] |].
      split; [done | by apply prefix_app_r].
    + split; [split; [intros _; split; [done |]; by exists response | done] |].
      split; [split; [discriminate |
                      intros (_ & [(r & Hr & Hbad)|(e & He & _)]); congruence] |].
      split; [intros e; split;
              [discriminate | intros [[? _]|(_ & He & _)]; discriminate] |].
      split; [by apply prefix_app_r | done].
  - pose proof (handled_is_request_exception err) as Hhandled.
    destruct (Exc.isinstance err Exc.Timeout);
      [| destruct (Exc.isinstance err Exc.ConnectionError);
         [| destruct (Exc.isinstance err Exc.HTTPError);
            [| destruct (Exc.isinstance err Exc.RequestException) eqn:Hreq]]];
      simpl in *;
      try (specialize (Hhandled eq_refl));
      (split; [split; [discriminate | intros (_ & r & Hr & _); discriminate] |]).
    1-4: split;
      [split; [intros _; split; [done |]; right; by exists err | done] |];
      (split; [intros e; split;
               [discriminate
               | intros [[? _]|(_ & [= <-] & He)]; [discriminate | congruence]] |]);
      (split; [done | by apply prefix_app_r]).
    split; [split; [discriminate |
                    intros (_ & [(r & Hr & _)|(e & [= <-] & He)]); congruence] |].
    split; [intros e; split;
            [intros [= <-]; by right
            | intros [[? _]|(_ & [= <-] & _)]; [discriminate | done]] |].
    done.
Qed.

(** X11: when the request is made, any timeout is reported as "Request
    timed out", without the text of the exception, and the call returns
    False; this holds also for a connect timeout, which is a connection
    error as well, because the handler for timeouts comes first. *)
Theorem timeout_is_reported_first (random : Z) (network : Request → result Response)
    (homeserver access_token room_id plain_text html_text : string) (w : World)
    (err : Exc.t) :
  Lib.valid_utf8 room_id = true →
  network (matrix_request random homeserver access_token room_id plain_text html_text) =
    Raised err →
  Exc.isinstance err Exc.Timeout = true →
  send_to_matrix random network homeserver access_token room_id plain_text html_text w =
    (Returned false,
     {| stdout := stdout w;
        stderr := stderr w ++ ["ERROR: Request timed out"];
        http_calls :=
          http_calls w ++
          [matrix_request random homeserver access_token room_id plain_text html_text] |}).
Proof.
  intros Hvalid Hreply Htimeout. rewrite send_to_matrix_run. cbv zeta.
  by rewrite Hvalid, Hreply, Htimeout.
Qed.

Lemma timeout_is_reported_first_witness :
  (Lib.valid_utf8 "!abc123:example.org" = true ∧
   fail_with Exc.ConnectTimeout "connect timeout=15"
     (matrix_request 0 "matrix.example.org" "syt_secret" "!abc123:example.org" "p" "h") =
     Raised {| Exc.cls := Exc.ConnectTimeout; Exc.message := "connect timeout=15";
               Exc.code := 0 |} ∧
   Exc.isinstance {| Exc.cls := Exc.ConnectTimeout; Exc.message := "connect timeout=15";
                     Exc.code := 0 |} Exc.ConnectionError = true ∧
   Exc.isinstance {| Exc.cls := Exc.ConnectTimeout; Exc.message := "connect timeout=15";
                     Exc.code := 0 |} Exc.Timeout = true) ∧
  send_to_matrix 0 (fail_with Exc.ConnectTimeout "connect timeout=15")
    "matrix.example.org" "syt_secret" "!abc123:example.org" "p" "h" initial_world =
    (Returned false,
     {| stdout := [];
        stderr := [] ++ ["ERROR: Request timed out"];
        http_calls :=
          [] ++ [matrix_request 0 "matrix.example.org" "syt_secret" "!abc123:example.org"
                   "p" "h"] |}).
Proof.
  split; [repeat split; reflexivity |].
  apply (timeout_is_reported_first 0 (fail_with Exc.ConnectTimeout "connect timeout=15")
           "matrix.example.org" "syt_secret" "!abc123:example.org" "p" "h" initial_world
           {| Exc.cls := Exc.ConnectTimeout; Exc.message := "connect timeout=15";
              Exc.code := 0 |}); reflexivity.
Defined.

(** ** More on the encoded room identifier *)

Section QuoteMore.
Import StrFacts.

Lemma app_cancel_r (a b s : string) : a +:+ s = b +:+ s → a = b.
Proof.
  revert b. induction a as [|x a IH]; intros [|y b] Heq; [done | | |].
  - apply (f_equal String.length) in Heq.
    rewrite app_nil_l, app_cons in Heq. simpl in Heq. rewrite app_length in Heq. lia.
  - apply (f_equal String.length) in Heq.
    rewrite app_nil_l, app_cons in Heq. simpl in Heq. rewrite app_length in Heq. lia.
  - rewrite !app_cons in Heq. injection Heq as -> Heq. f_equal. by apply IH.
Qed.



Lemma percent_is_reserved : unreserved "%" = false.
Proof. reflexivity. Qed.

Lemma quote_inj (a b : string) :
  Lib.quote_from_bytes a "" = Lib.quote_from_bytes b "" → a = b.
Proof.
  revert b. induction a as [|c a IH]; intros [|c' b] Heq; [done | | |].
  - rewrite quote_cons in Heq.
    destruct (quote_byte_cases c') as [[_ Hq]|(_ & hi & lo & h & l & Hq & _)];
      rewrite Hq in Heq; discriminate.
  - rewrite quote_cons in Heq.
    destruct (quote_byte_cases c) as [[_ Hq]|(_ & hi & lo & h & l & Hq & _)];
      rewrite Hq in Heq; discriminate.
  - rewrite !quote_cons in Heq.
    destruct (quote_byte_cases c) as [[Hc Hq]|(Hc & hi & lo & h & l & Hq & Hhi & Hlo & Hv)];
      destruct (quote_byte_cases c')
        as [[Hc' Hq']|(Hc' & hi' & lo' & h' & l' & Hq' & Hhi' & Hlo' & Hv')];
      rewrite Hq, Hq' in Heq; rewrite !app_cons, !app_nil_l in Heq.
    + injection Heq as -> Heq. f_equal. by apply IH.
    + injection Heq as -> Heq. by rewrite percent_is_reserved in Hc.
    + injection Heq as <- Heq. by rewrite percent_is_reserved in Hc'.
    + injection Heq as -> -> Heq.
      assert (c = c') as ->.
      { rewrite <- (ascii_N_embedding c), <- (ascii_N_embedding c'). f_equal.
        apply N2Z.inj. congruence. }
      f_equal. by apply IH.
Qed.


End QuoteMore.

(** X12: percent-encoding loses nothing: two room identifiers that are
    valid UTF-8 have the same encoding only if they are equal, and two
    delivery attempts to the same server with the same transaction
    identifier send to the same URL exactly when their room identifiers are
    equal. *)
Theorem room_ids_give_distinct_urls (random : Z) (network network' : Request → result Response)
    (homeserver access_token access_token' room_id room_id' : string)
    (plain_text plain_text' html_text html_text' : string) (w w' : World) :
  Lib.valid_utf8 room_id = true →
  Lib.valid_utf8 room_id' = true →
  ((Lib.quote room_id "" w).1 = (Lib.quote room_id' "" w').1 ↔ room_id = room_id') ∧
  (req_url <$> last (http_calls
     (send_to_matrix random network homeserver access_token room_id
        plain_text html_text w).2) =
   req_url <$> last (http_calls
     (send_to_matrix random network' homeserver access_token' room_id'
        plain_text' html_text' w').2) ↔
   room_id = room_id').
Proof.
  intros Hvalid Hvalid'. split.
  - rewrite !quote_valid by done. simpl. split.
    + intros [= Heq]. by apply quote_inj.
    + by intros ->.
  - rewrite !send_to_matrix_calls, !last_snoc by done. simpl. split.
    + intros [= Heq].
      do 3 (apply String.app_inj in Heq).
      by apply quote_inj, (app_cancel_r _ _ _ Heq).
    + by intros ->.
Qed.

Lemma room_ids_give_distinct_urls_witness :
  (Lib.valid_utf8 "!abc123:example.org" = true ∧
   Lib.valid_utf8 "!abc123:example.com" = true) ∧
  ((Lib.quote "!abc123:example.org" "" initial_world).1 =
   (Lib.quote "!abc123:example.com" "" initial_world).1 ↔
   "!abc123:example.org" = "!abc123:example.com") ∧
  (req_url <$> last (http_calls
     (send_to_matrix 0 (respond 200 "OK") "matrix.example.org" "syt_secret"
        "!abc123:example.org" "plain" "html" initial_world).2) =
   req_url <$> last (http_calls
     (send_to_matrix 0 (respond 200 "OK") "matrix.example.org" "syt_secret"
        "!abc123:example.com" "plain" "html" initial_world).2) ↔
   "!abc123:example.org" = "!abc123:example.com").
Proof.
  split; [split; reflexivity |].
  apply (room_ids_give_distinct_urls 0 (respond 200 "OK") (respond 200 "OK")
           "matrix.example.org" "syt_secret" "syt_secret"
           "!abc123:example.org" "!abc123:example.com"
           "plain" "plain" "html" "html" initial_world initial_world); reflexivity.
Defined.



(** ** Where the access token goes *)




